(** * Legal Document Analyzer: the request pipeline of [main.py]

    A shallow embedding of the FastAPI module [src/main.py]: text extraction,
    prompt construction, the parse-or-fall-back step, the six single-category
    endpoints, the batch endpoint, upload and result retrieval.

    Conventions.
    - A Python [str] is a [string]; a character is a code point below 256.
    - A Python exception is a value of [exn]; a function that may raise
      returns in the monad [M], which threads the [World] (the two
      directories, the prompts sent so far, the clock reads, the queued
      background tasks) and keeps the world reached when the exception
      was raised.
    - What the module obtains from libraries and services (PyPDF2,
      python-docx, the UTF-8 codec, the chat-completion service, [json.loads],
      the clock, pathlib's pattern matching, pydantic's coercions) is a field
      of [Env]; every definition and theorem is parametric in it. *)

From stdpp Require Import gmap strings list fin_maps pretty.
From Stdlib Require Import Strings.Ascii Strings.Byte.

#[local] Set Warnings "-register-all".

(** ** Python strings *)

Module Py.

Definition LF : string := String "010"%char "".
Definition CR : ascii := "013"%char.

(** [s[:n]] *)
Fixpoint slice_to (n : nat) (s : string) : string :=
  match n, s with
  | S n', String c s' => String c (slice_to n' s')
  | _, _ => ""
  end.

(** [s[n:]] *)
Fixpoint slice_from (n : nat) (s : string) : string :=
  match n, s with
  | S n', String _ s' => slice_from n' s'
  | _, _ => s
  end.

(** [sep.join(l)] *)
Definition join (sep : string) (l : list string) : string := String.concat sep l.

(** [s.split(sep)] for a one-character separator: never empty. *)
Fixpoint split (sep : ascii) (s : string) : list string :=
  match s with
  | "" => [""]
  | String c s' =>
      if decide (c = sep) then "" :: split sep s'
      else match split sep s' with
           | hd :: tl => String c hd :: tl
           | [] => [String c ""]
           end
  end.

(** [s.rfind(c)], [None] standing for -1 *)
Fixpoint rfind (c : ascii) (s : string) : option nat :=
  match s with
  | "" => None
  | String a s' =>
      match rfind c s' with
      | Some i => Some (S i)
      | None => if decide (a = c) then Some 0 else None
      end
  end.

(** [c.lower()] on code points below 256: A-Z and the Latin-1 capitals. *)
Definition lower_char (c : ascii) : ascii :=
  let n := nat_of_ascii c in
  if bool_decide (65 ≤ n ≤ 90)%nat then ascii_of_nat (n + 32)%nat
  else if bool_decide (192 ≤ n ≤ 222 ∧ n ≠ 215)%nat then ascii_of_nat (n + 32)%nat
  else c.

(** [s.lower()] *)
Fixpoint lower (s : string) : string :=
  match s with
  | "" => ""
  | String c s' => String (lower_char c) (lower s')
  end.

(** ['/' in s] *)
Fixpoint contains (c : ascii) (s : string) : bool :=
  match s with
  | "" => false
  | String a s' => bool_decide (a = c) || contains c s'
  end.

(** What [open(path, 'r')] does to the decoded text before [read()] returns
    it: with the default [newline=None] every "\r\n" and every lone "\r"
    becomes "\n". *)
Fixpoint universal_newlines (s : string) : string :=
  match s with
  | "" => ""
  | String c s' =>
      if decide (c = CR) then
        match s' with
        | String "010"%char s'' => String "010"%char (universal_newlines s'')
        | _ => String "010"%char (universal_newlines s')
        end
      else String c (universal_newlines s')
  end.

(** [PurePosixPath(p).name]: the last component, empty and "." components
    dropped. *)
Definition path_name (p : string) : string :=
  List.last (List.filter (λ part, bool_decide (part ≠ "" ∧ part ≠ ".")) (split "/" p)) "".

(** [PurePosixPath(p).suffix] *)
Definition path_suffix (p : string) : string :=
  let name := path_name p in
  match rfind "." name with
  | Some i => if bool_decide (0 < i < String.length name - 1)%nat then slice_from i name else ""
  | None => ""
  end.

End Py.

(** ** Exceptions *)

(** [HTTPException(status_code, detail)], or any other [Exception] [e], of
    which the module only ever uses [str(e)]. *)
Inductive exn : Type :=
  | HTTPException (status_code : nat) (detail : string)
  | Exception (str : string).

Definition status_of (e : exn) : option nat :=
  match e with
  | HTTPException c _ => Some c
  | Exception _ => None
  end.

Definition detail_of (e : exn) : string :=
  match e with
  | HTTPException _ d => d
  | Exception s => s
  end.

(** ** JSON values, as [json.loads] returns them and [json.dump] writes them *)

Inductive json : Type :=
  | JNull
  | JBool (b : bool)
  | JInt (z : Z)
  | JFloat (repr : string)
  | JStr (s : string)
  | JArr (l : list json)
  | JObj (m : gmap string json).

(** [type(v).__name__] *)
Definition type_name (v : json) : string :=
  match v with
  | JNull => "NoneType"
  | JBool _ => "bool"
  | JInt _ => "int"
  | JFloat _ => "float"
  | JStr _ => "str"
  | JArr _ => "list"
  | JObj _ => "dict"
  end.

(** [v.get(key, default)]: an [AttributeError] unless [v] is a dict. *)
Definition py_get (v : json) (key : string) (dflt : json) : exn + json :=
  match v with
  | JObj m => inr (default dflt (m !! key))
  | _ => inl (Exception ("'" +:+ type_name v +:+ "' object has no attribute 'get'"))
  end.


(** ** Models of the request and response bodies *)

(** [datetime.utcnow()], through the two renderings the module uses. *)
Record datetime : Type := {
  strftime : string;   (* .strftime('%Y%m%d_%H%M%S') *)
  isoformat : string   (* .isoformat() *)
}.

(** [class AnalysisRequest(BaseModel)], as the handler receives it. *)
Record AnalysisRequest : Type := {
  req_analysis_type : string;
  focus_areas : option (list string);
  language : string
}.

(** [class AnalysisResponse(BaseModel)] *)
Record AnalysisResponse : Type := {
  document_id : string;
  analysis_type : string;
  status : string;
  timestamp : string;
  summary : option string;
  key_findings : option (list string);
  risks : option (list string);
  recommendations : option (list string);
  detailed_analysis : option (gmap string json)
}.

(** [class DocumentMetadata(BaseModel)] *)
Record DocumentMetadata : Type := {
  md_document_id : string;
  md_filename : string;
  md_file_type : string;
  md_upload_time : string;
  md_file_size : nat;
  md_status : string
}.

Definition of_opt_str (o : option string) : json :=
  match o with Some s => JStr s | None => JNull end.

Definition of_opt_list (o : option (list string)) : json :=
  match o with Some l => JArr (JStr <$> l) | None => JNull end.

Definition of_opt_dict (o : option (gmap string json)) : json :=
  match o with Some m => JObj m | None => JNull end.

(** [response.dict()] *)
Definition AnalysisResponse_dict (r : AnalysisResponse) : json :=
  JObj (list_to_map [
    ("document_id", JStr (document_id r));
    ("analysis_type", JStr (analysis_type r));
    ("status", JStr (status r));
    ("timestamp", JStr (timestamp r));
    ("summary", of_opt_str (summary r));
    ("key_findings", of_opt_list (key_findings r));
    ("risks", of_opt_list (risks r));
    ("recommendations", of_opt_list (recommendations r));
    ("detailed_analysis", of_opt_dict (detailed_analysis r))]).

(** A field value that already has the declared type is taken as it is. *)
Definition as_str (v : json) : option string :=
  match v with JStr s => Some s | _ => None end.

Definition as_opt_str (v : json) : option (option string) :=
  match v with
  | JNull => Some None
  | JStr s => Some (Some s)
  | _ => None
  end.

Definition as_opt_list (v : json) : option (option (list string)) :=
  match v with
  | JNull => Some None
  | JArr l => Some <$> mapM as_str l
  | _ => None
  end.

Definition as_opt_dict (v : json) : option (option (gmap string json)) :=
  match v with
  | JNull => Some None
  | JObj m => Some (Some m)
  | _ => None
  end.

(** ** The environment: libraries and services *)

Record Env : Type := {
  (** pathlib: does the name match the glob pattern *)
  fnmatch : string → string → bool;
  (** PyPDF2: [page.extract_text()] for each page of [PdfReader(file).pages],
      or the text of the exception raised on the way *)
  pdf_pages : list byte → string + list string;
  (** python-docx: [paragraph.text] for each of [Document(path).paragraphs] *)
  docx_paragraphs : list byte → string + list string;
  (** the UTF-8 codec *)
  utf8_decode : list byte → string + string;
  (** [open(path, 'w')] / [open(path, 'wb')]: the text of the [OSError], if any *)
  open_for_writing : string → option string;
  (** the chat-completion service: prompts sent before, prompt, and the first
      choice's content or the text of the exception *)
  chat_completion : list string → string → string + string;
  (** [json.loads]; [None] is [JSONDecodeError] *)
  json_loads : string → option json;
  (** the clock, by number of earlier reads *)
  utcnow : nat → datetime;
  (** pydantic on values of summary, key_findings, risks, recommendations and
      detailed_analysis that do not all have the declared type: the coerced
      fields, or the text of the [ValidationError] *)
  pydantic_coerce :
    json → json → json → json → json →
    string + (option string * option (list string) * option (list string)
              * option (list string) * option (gmap string json))
}.

(** ** The world a request runs in

    The two directories are flat: a file is known by its name inside the
    directory. RESULTS_DIR is kept as the JSON values the files hold, that
    is, what [json.load] reads back from what [json.dump] wrote. *)

Record World : Type := {
  upload_dir : gmap string (list byte);   (* UPLOAD_DIR: name -> bytes *)
  results_dir : gmap string json;         (* RESULTS_DIR: name -> stored JSON *)
  prompts_sent : list string;             (* prompts sent to the service, oldest first *)
  clock_reads : nat;
  background : list (string * json)       (* queued save_analysis_result calls *)
}.

Definition set_upload_dir (f : gmap string (list byte)) (w : World) : World :=
  {| upload_dir := f; results_dir := results_dir w; prompts_sent := prompts_sent w;
     clock_reads := clock_reads w; background := background w |}.

Definition set_results_dir (f : gmap string json) (w : World) : World :=
  {| upload_dir := upload_dir w; results_dir := f; prompts_sent := prompts_sent w;
     clock_reads := clock_reads w; background := background w |}.

Definition set_prompts_sent (l : list string) (w : World) : World :=
  {| upload_dir := upload_dir w; results_dir := results_dir w; prompts_sent := l;
     clock_reads := clock_reads w; background := background w |}.

Definition set_clock_reads (n : nat) (w : World) : World :=
  {| upload_dir := upload_dir w; results_dir := results_dir w; prompts_sent := prompts_sent w;
     clock_reads := n; background := background w |}.

Definition set_background (l : list (string * json)) (w : World) : World :=
  {| upload_dir := upload_dir w; results_dir := results_dir w; prompts_sent := prompts_sent w;
     clock_reads := clock_reads w; background := l |}.

(** ** The monad of handlers: state, and exceptions that keep the state *)

Definition M (A : Type) : Type := World → (exn + A) * World.

#[global] Instance M_ret : MRet M := λ A a w, (inr a, w).

#[global] Instance M_bind : MBind M := λ A B k m w,
  match m w with
  | (inr a, w') => k a w'
  | (inl e, w') => (inl e, w')
  end.

Definition raise {A : Type} (e : exn) : M A := λ w, (inl e, w).

Definition lift {A : Type} (r : exn + A) : M A := λ w, (r, w).

(** A library call that returns, or raises an exception with the given text. *)
Definition lib {A : Type} (r : string + A) : M A :=
  match r with
  | inr a => mret a
  | inl msg => raise (Exception msg)
  end.

(** [str(e)] *)
Definition str_of (e : exn) : string :=
  match e with
  | Exception s => s
  | HTTPException c d => pretty c +:+ ": " +:+ d
  end.

(** [try: m  except Exception as e: raise HTTPException(code, prefix + str(e))] *)
Definition reraise {A : Type} (code : nat) (prefix : string) (m : M A) : M A := λ w,
  match m w with
  | (inl e, w') => (inl (HTTPException code (prefix +:+ str_of e)), w')
  | r => r
  end.

(** [try: m  except HTTPException: raise
            except Exception as e: raise HTTPException(500, prefix + str(e))] *)
Definition endpoint {A : Type} (prefix : string) (m : M A) : M A := λ w,
  match m w with
  | (inl (Exception s), w') => (inl (HTTPException 500 (prefix +:+ s)), w')
  | r => r
  end.

Fixpoint foldM {A B : Type} (f : B → A → M B) (b : B) (l : list A) : M B :=
  match l with
  | [] => mret b
  | a :: l' => b' ← f b a; foldM f b' l'
  end.

(** ** The six categories

    The six single-category handlers of [main.py] are the same body up to
    four strings: the [analysis_type] of the response, the label passed to
    the prompt, the default focus areas and the prefix of the 500 message. *)

Inductive Category : Type := Contract | Compliance | IP | Corporate | Labor | Tax.

Definition category_name (c : Category) : string :=
  match c with
  | Contract => "contract"
  | Compliance => "compliance"
  | IP => "ip"
  | Corporate => "corporate"
  | Labor => "labor"
  | Tax => "tax"
  end.

Definition prompt_label (c : Category) : string :=
  match c with
  | Contract => "contract"
  | Compliance => "compliance"
  | IP => "intellectual property"
  | Corporate => "corporate governance"
  | Labor => "labor law"
  | Tax => "tax law"
  end.

Definition default_focus_areas (c : Category) : list string :=
  match c with
  | Contract => ["terms"; "liability"; "payment"; "termination"]
  | Compliance => ["regulations"; "standards"; "requirements"]
  | IP => ["patents"; "trademarks"; "copyrights"; "licensing"]
  | Corporate => ["governance"; "ownership"; "structure"; "compliance"]
  | Labor => ["employment"; "benefits"; "disputes"; "regulations"]
  | Tax => ["deductions"; "credits"; "liabilities"; "planning"]
  end.

Definition failure_prefix (c : Category) : string :=
  match c with
  | Contract => "Contract analysis failed: "
  | Compliance => "Compliance analysis failed: "
  | IP => "IP analysis failed: "
  | Corporate => "Corporate analysis failed: "
  | Labor => "Labor analysis failed: "
  | Tax => "Tax analysis failed: "
  end.

(** The request a body with no fields yields: the defaults of
    [ContractAnalysisRequest], ..., [TaxAnalysisRequest]. *)
Definition default_request (c : Category) : AnalysisRequest :=
  {| req_analysis_type := category_name c;
     focus_areas := Some (default_focus_areas c);
     language := "English" |}.

(** [valid_types] of [batch_analysis] *)
Definition valid_types : gset string :=
  {[ "contract"; "compliance"; "ip"; "corporate"; "labor"; "tax" ]}.

(** [focus_areas_map] of [batch_analysis] *)
Definition focus_areas_map : gmap string (list string) :=
  list_to_map [
    ("contract", ["terms"; "liability"; "payment"; "termination"]);
    ("compliance", ["regulations"; "standards"; "requirements"]);
    ("ip", ["patents"; "trademarks"; "copyrights"; "licensing"]);
    ("corporate", ["governance"; "ownership"; "structure"; "compliance"]);
    ("labor", ["employment"; "benefits"; "disputes"; "regulations"]);
    ("tax", ["deductions"; "credits"; "liabilities"; "planning"])].

(** [allowed_types] of [upload_document] *)
Definition allowed_types : gset string := {[ ".pdf"; ".docx"; ".doc"; ".txt" ]}.

(** ** Pure steps *)

(** [generate_analysis_prompt], cut at the place where the document text is
    interpolated. *)
Definition prompt_head (analysis_type : string) (focus_areas : list string) : string :=
  "Analyze the following legal document with focus on " +:+ analysis_type +:+ " aspects." +:+ Py.LF
  +:+ "Focus areas: " +:+ Py.join ", " focus_areas +:+ Py.LF
  +:+ Py.LF
  +:+ "Document text:" +:+ Py.LF.

Definition prompt_tail : string :=
  Py.LF
  +:+ Py.LF
  +:+ "Please provide:" +:+ Py.LF
  +:+ "1. Executive Summary (2-3 sentences)" +:+ Py.LF
  +:+ "2. Key Findings (5-7 bullet points)" +:+ Py.LF
  +:+ "3. Risk Assessment (identify major risks)" +:+ Py.LF
  +:+ "4. Recommendations (actionable recommendations)" +:+ Py.LF
  +:+ "5. Detailed Analysis by focus area" +:+ Py.LF
  +:+ Py.LF
  +:+ "Format your response as JSON with keys: summary, key_findings, risks, recommendations, detailed_analysis".

Definition generate_analysis_prompt
    (analysis_type document_text : string) (focus_areas : list string) : string :=
  prompt_head analysis_type focus_areas +:+ Py.slice_to 5000 document_text +:+ prompt_tail.

(** [request.focus_areas or default]: [None] and the empty list are falsy. *)
Definition or_default (given : option (list string)) (dflt : list string) : list string :=
  match given with
  | Some (a :: l) => a :: l
  | _ => dflt
  end.

(** The dict built when [json.loads] raises [JSONDecodeError]. *)
Definition fallback (analysis_result : string) : json :=
  JObj (<["summary" := JStr (Py.slice_to 200 analysis_result)]>
       (<["detailed_analysis" := JObj {["raw_response" := JStr analysis_result]}]> ∅)).

(** [result_file] of [save_analysis_result] and of [get_analysis_results],
    relative to RESULTS_DIR. *)
Definition result_file (document_id : string) : string :=
  document_id +:+ "_analysis.json".

Section Pipeline.

Context (E : Env).

(** [try: json.loads(analysis_result)  except JSONDecodeError: {...}] *)
Definition parse_reply (analysis_result : string) : json :=
  match json_loads E analysis_result with
  | Some analysis_data => analysis_data
  | None => fallback analysis_result
  end.

(** [AnalysisResponse(document_id=..., ..., detailed_analysis=...)] *)
Definition AnalysisResponse_init
    (document_id analysis_type status timestamp : string)
    (summary key_findings risks recommendations detailed_analysis : json)
    : exn + AnalysisResponse :=
  match as_opt_str summary, as_opt_list key_findings, as_opt_list risks,
        as_opt_list recommendations, as_opt_dict detailed_analysis with
  | Some s, Some k, Some r, Some c, Some d =>
      inr {| document_id := document_id; analysis_type := analysis_type;
             status := status; timestamp := timestamp; summary := s;
             key_findings := k; risks := r; recommendations := c;
             detailed_analysis := d |}
  | _, _, _, _, _ =>
      match pydantic_coerce E summary key_findings risks recommendations
              detailed_analysis with
      | inr (s, k, r, c, d) =>
          inr {| document_id := document_id; analysis_type := analysis_type;
                 status := status; timestamp := timestamp; summary := s;
                 key_findings := k; risks := r; recommendations := c;
                 detailed_analysis := d |}
      | inl msg => inl (Exception msg)
      end
  end.

(** *** Effects *)

(** [datetime.utcnow()] *)
Definition now : M datetime := λ w,
  (inr (utcnow E (clock_reads w)), set_clock_reads (S (clock_reads w)) w).

(** [UPLOAD_DIR.glob(pattern)]: the matching names, in the order the
    directory lists them. *)
Definition glob (pattern : string) (w : World) : list string :=
  filter (λ name, fnmatch E pattern name = true) (fst <$> map_to_list (upload_dir w)).

(** [next(UPLOAD_DIR.glob(pattern), None)]; a path is the file's name inside
    UPLOAD_DIR. *)
Definition glob_first (pattern : string) : M (option string) := λ w,
  (inr (head (glob pattern w)), w).

(** The bytes of an uploaded file. *)
Definition read_upload (file_path : string) : M (list byte) := λ w,
  match upload_dir w !! file_path with
  | Some content => (inr content, w)
  | None =>
      (inl (Exception ("[Errno 2] No such file or directory: 'uploads/" +:+ file_path +:+ "'")), w)
  end.

(** [with open(path, mode) as f: f.write(...)] under one of the directories *)
Definition write_upload (file_path : string) (content : list byte) : M unit := λ w,
  match open_for_writing E ("uploads/" +:+ file_path) with
  | Some msg => (inl (Exception msg), w)
  | None => (inr (), set_upload_dir (<[file_path := content]> (upload_dir w)) w)
  end.

Definition write_result (file_name : string) (data : json) : M unit := λ w,
  match open_for_writing E ("analysis_results/" +:+ file_name) with
  | Some msg => (inl (Exception msg), w)
  | None => (inr (), set_results_dir (<[file_name := data]> (results_dir w)) w)
  end.

(** [background_tasks.add_task(save_analysis_result, document_id, data)] *)
Definition add_task (document_id : string) (data : json) : M unit := λ w,
  (inr (), set_background (background w ++ [(document_id, data)]) w).

(** *** Utility functions *)

Definition extract_text_from_pdf (file_path : string) : M string :=
  reraise 400 "Error reading PDF: " (
    file ← read_upload file_path;
    pages ← lib (pdf_pages E file);
    mret (foldl (λ text page, text +:+ page) "" pages)).

Definition extract_text_from_docx (file_path : string) : M string :=
  reraise 400 "Error reading DOCX: " (
    file ← read_upload file_path;
    paragraphs ← lib (docx_paragraphs E file);
    mret (Py.join Py.LF paragraphs)).

Definition extract_text_from_txt (file_path : string) : M string :=
  reraise 400 "Error reading TXT: " (
    file ← read_upload file_path;
    text ← lib (utf8_decode E file);
    mret (Py.universal_newlines text)).

Definition extract_document_text (file_path file_type : string) : M string :=
  if decide (Py.lower file_type = "pdf") then extract_text_from_pdf file_path
  else if decide (Py.lower file_type ∈ ["docx"; "doc"]) then extract_text_from_docx file_path
  else if decide (Py.lower file_type = "txt") then extract_text_from_txt file_path
  else raise (HTTPException 400 ("Unsupported file type: " +:+ file_type)).

Definition call_openai_api (prompt : string) : M string :=
  reraise 500 "OpenAI API error: " (λ w,
    match chat_completion E (prompts_sent w) prompt with
    | inr content => (inr content, set_prompts_sent (prompts_sent w ++ [prompt]) w)
    | inl msg => (inl (Exception msg), set_prompts_sent (prompts_sent w ++ [prompt]) w)
    end).

Definition save_analysis_result (document_id : string) (analysis_data : json) : M string :=
  reraise 500 "Error saving analysis: " (
    write_result (result_file document_id) analysis_data;;
    mret ("analysis_results/" +:+ result_file document_id)).

(** The server runs the queued tasks once the response is out; what a task
    returns or raises is dropped. *)
Definition run_background_tasks (w : World) : World :=
  foldl (λ w' task, (save_analysis_result task.1 task.2 w').2)
        (set_background [] w) (background w).

(** *** Document upload *)

Definition upload_document (filename : string) (content : list byte) : M DocumentMetadata :=
  endpoint "Upload failed: " (
    let file_ext := Py.lower (Py.path_suffix filename) in
    if decide (file_ext ∉ allowed_types) then
      raise (HTTPException 400
               ("Unsupported file type. Allowed: " +:+ Py.join ", " (elements allowed_types)))
    else
      t ← now;
      let document_id := strftime t +:+ "_" +:+ List.hd "" (Py.split "." filename) in
      let file_path := document_id +:+ file_ext in
      write_upload file_path content;;
      t' ← now;
      mret {| md_document_id := document_id;
              md_filename := filename;
              md_file_type := Py.slice_from 1 file_ext;
              md_upload_time := isoformat t';
              md_file_size := List.length content;
              md_status := "uploaded" |}).

(** *** The single-category endpoints *)

Definition analyze (c : Category) (document_id file_type : string)
    (request : AnalysisRequest) : M AnalysisResponse :=
  endpoint (failure_prefix c) (
    file_path ← glob_first (document_id +:+ ".*");
    match file_path with
    | None => raise (HTTPException 404 "Document not found")
    | Some file_path =>
        document_text ← extract_document_text file_path file_type;
        let focus_areas := or_default (focus_areas request) (default_focus_areas c) in
        let prompt := generate_analysis_prompt (prompt_label c) document_text focus_areas in
        analysis_result ← call_openai_api prompt;
        let analysis_data := parse_reply analysis_result in
        t ← now;
        summary ← lift (py_get analysis_data "summary" JNull);
        key_findings ← lift (py_get analysis_data "key_findings" (JArr []));
        risks ← lift (py_get analysis_data "risks" (JArr []));
        recommendations ← lift (py_get analysis_data "recommendations" (JArr []));
        detailed_analysis ← lift (py_get analysis_data "detailed_analysis" (JObj ∅));
        response ← lift (AnalysisResponse_init document_id (category_name c) "completed"
                           (isoformat t) summary key_findings risks recommendations
                           detailed_analysis);
        add_task document_id (AnalysisResponse_dict response);;
        mret response
    end).

Definition analyze_contract := analyze Contract.
Definition analyze_compliance := analyze Compliance.
Definition analyze_ip := analyze IP.
Definition analyze_corporate := analyze Corporate.
Definition analyze_labor := analyze Labor.
Definition analyze_tax := analyze Tax.

(** *** Batch analysis *)

(** One turn of [for analysis_type in analysis_types]. *)
Definition batch_step (document_text : string) (results : gmap string json)
    (analysis_type : string) : M (gmap string json) :=
  focus_areas ← match focus_areas_map !! analysis_type with
                | Some l => mret l
                | None => raise (Exception ("'" +:+ analysis_type +:+ "'"))
                end;
  let prompt := generate_analysis_prompt analysis_type document_text focus_areas in
  analysis_result ← call_openai_api prompt;
  mret (<[analysis_type := parse_reply analysis_result]> results).

Definition batch_analysis (document_id file_type : string)
    (analysis_types : list string) : M json :=
  endpoint "Batch analysis failed: " (
    file_path ← glob_first (document_id +:+ ".*");
    match file_path with
    | None => raise (HTTPException 404 "Document not found")
    | Some file_path =>
        let invalid_types : gset string := list_to_set analysis_types ∖ valid_types in
        if decide (invalid_types ≠ ∅) then
          raise (HTTPException 400
                   ("Invalid analysis types: " +:+ Py.join ", " (elements invalid_types)))
        else
          document_text ← extract_document_text file_path file_type;
          results ← foldM (batch_step document_text) ∅ analysis_types;
          t ← now;
          let response_data := JObj (list_to_map [
            ("document_id", JStr document_id);
            ("analysis_type", JStr "batch");
            ("status", JStr "completed");
            ("timestamp", JStr (isoformat t));
            ("analyses", JObj results);
            ("analysis_count", JInt (Z.of_nat (List.length analysis_types)))]) in
          add_task (document_id +:+ "_batch") response_data;;
          mret response_data
    end).

(** *** Results retrieval *)

Definition get_analysis_results (document_id : string) : M json :=
  endpoint "Error retrieving results: " (λ w,
    match results_dir w !! result_file document_id with
    | None => (inl (HTTPException 404 "Analysis results not found"), w)
    | Some results => (inr results, w)
    end).

End Pipeline.

(** ** Notions used to state the properties *)

(** The response of a single-category endpoint to a reply that is not JSON. *)
Definition fallback_response (c : Category) (id ts raw : string) : AnalysisResponse :=
  {| document_id := id; analysis_type := category_name c; status := "completed";
     timestamp := ts; summary := Some (Py.slice_to 200 raw);
     key_findings := Some []; risks := Some []; recommendations := Some [];
     detailed_analysis := Some {[ "raw_response" := JStr raw ]} |}.

(** The [analyses] entry of a batch result. *)
Definition analyses (response_data : json) : gmap string json :=
  match response_data with
  | JObj m => match m !! "analyses" with Some (JObj a) => a | _ => ∅ end
  | _ => ∅
  end.

(** [s] occurs in [t]. *)
Definition occurs_in (s t : string) : Prop := ∃ pre post, t = pre +:+ s +:+ post.

(** A status code of the 5xx class. *)
Definition server_error (e : exn) : Prop :=
  ∃ code, status_of e = Some code ∧ (500 ≤ code < 600)%nat.

(** The parser that [extract_document_text] selects for the declared file
    type raises on the stored bytes, with text [cause]; [prefix] is what the
    selected [extract_text_from_*] puts before it. *)
Definition parser_failure (E : Env) (file_type : string) (file : list byte)
    (prefix cause : string) : Prop :=
  (Py.lower file_type = "pdf" ∧ pdf_pages E file = inl cause
   ∧ prefix = "Error reading PDF: ")
  ∨ (Py.lower file_type ∈ ["docx"; "doc"] ∧ docx_paragraphs E file = inl cause
     ∧ prefix = "Error reading DOCX: ")
  ∨ (Py.lower file_type = "txt" ∧ utf8_decode E file = inl cause
     ∧ prefix = "Error reading TXT: ").

Section Derived.

Context (E : Env).

(** What the queued tasks leave in RESULTS_DIR. *)
Definition persist1 (results : gmap string json) (task : string * json) : gmap string json :=
  match open_for_writing E ("analysis_results/" +:+ result_file task.1) with
  | Some _ => results
  | None => <[result_file task.1 := task.2]> results
  end.

Definition persist (tasks : list (string * json)) (results : gmap string json) :=
  foldl persist1 results tasks.

End Derived.

(** ** A sample environment

    Stand-ins for the libraries and the service, used to run the handlers on
    concrete requests: an ASCII-only UTF-8 codec (on bytes below 128 decoding
    is the identity), a service whose replies are plain sentences, a JSON
    parser that knows the document "{}" and rejects the sentences, a
    PDF reader that finds two pages in files starting with "%PDF", and
    a pattern matcher for patterns of the form "literal.*". *)

Module Sample.

Definition ascii_decode (content : list byte) : string + string :=
  if forallb (λ b, (Byte.to_N b <? 128)%N) content
  then inr (String.string_of_list_byte content)
  else inl "'utf-8' codec can't decode bytes: invalid start byte".

Definition clock (n : nat) : datetime :=
  {| strftime := "20240101_12000" +:+ pretty n;
     isoformat := "2024-01-01T12:00:0" +:+ pretty n |}.

Definition env : Env :=
  {| fnmatch := λ pattern name,
       String.prefix (Py.slice_to (String.length pattern - 1) pattern) name;
     pdf_pages := λ content,
       if String.prefix "%PDF" (String.string_of_list_byte content)
       then inr ["Page one."; "Page two."]
       else inl "EOF marker not found";
     docx_paragraphs := λ content,
       if String.prefix "PK" (String.string_of_list_byte content)
       then inr ["First paragraph."; "Second paragraph."]
       else inl "File is not a zip file";
     utf8_decode := ascii_decode;
     open_for_writing := λ _, None;
     chat_completion := λ sent _,
       inr ("Reply " +:+ pretty (List.length sent) +:+ ": the document looks fine.");
     json_loads := λ s, if decide (s = "{}") then Some (JObj ∅) else None;
     utcnow := clock;
     pydantic_coerce := λ _ _ _ _ _, inl "1 validation error for AnalysisResponse" |}.

Definition bytes (s : string) : list byte := String.list_byte_of_string s.

(** Three uploaded files: a text file, a file named .pdf that is no PDF,
    and a text file with a Windows line ending (a, CR, LF, b). *)
Definition world : World :=
  {| upload_dir := <[ "doc1.txt" := bytes "Lease agreement." ]>
                   (<[ "scan.pdf" := bytes "not a pdf" ]>
                   (<[ "memo.txt" := [x61; x0d; x0a; x62] ]> ∅));
     results_dir := ∅;
     prompts_sent := [];
     clock_reads := 0;
     background := [] |}.

Definition text : string := "Lease agreement.".
Definition reply0 : string := "Reply 0: the document looks fine.".
Definition reply1 : string := "Reply 1: the document looks fine.".

(** The world after a contract analysis of doc1 and its background task,
    and after a tax analysis on top of it. *)
Definition after_contract : World :=
  (analyze env Contract "doc1" "txt" (default_request Contract) world).2.

Definition after_tax : World :=
  (analyze env Tax "doc1" "txt" (default_request Tax)
     (run_background_tasks env after_contract)).2.

Definition after_contract_again : World :=
  (analyze env Contract "doc1" "txt" (default_request Contract)
     (run_background_tasks env after_contract)).2.

End Sample.

(** ** The download endpoint *)

(** [FileResponse(path=..., filename=..., media_type=...)]; [path] is the
    file's name inside RESULTS_DIR. *)
Record FileResponse : Type := {
  fr_path : string;
  fr_filename : string;
  fr_media_type : string
}.

Definition download_analysis_results (document_id : string) : M FileResponse :=
  endpoint "Error downloading results: " (λ w,
    match results_dir w !! result_file document_id with
    | None => (inl (HTTPException 404 "Analysis results not found"), w)
    | Some _ =>
        (inr {| fr_path := result_file document_id;
                fr_filename := document_id +:+ "_analysis.json";
                fr_media_type := "application/json" |}, w)
    end).

(** The worlds a single-category endpoint can end in: the world it started
    from, with at most one prompt appended and at most one clock read. *)
Inductive analyze_reach (w : World) : World → Prop :=
  | reach_start : analyze_reach w w
  | reach_sent prompt :
      analyze_reach w (set_prompts_sent (prompts_sent w ++ [prompt]) w)
  | reach_clock prompt :
      analyze_reach w
        (set_clock_reads (S (clock_reads w))
           (set_prompts_sent (prompts_sent w ++ [prompt]) w)).

(** The [analysis_count] entry of a batch result. *)
Definition analysis_count (response_data : json) : option Z :=
  match response_data with
  | JObj m => match m !! "analysis_count" with Some (JInt n) => Some n | _ => None end
  | _ => None
  end.

(** The file types [extract_document_text] has a parser for. *)
Definition supported_types : list string := ["pdf"; "docx"; "doc"; "txt"].

(** ** More sample environments: a service that is down, a service that
    answers with a JSON list, a results directory that cannot be written *)

Module Faulty.

Definition service_down : Env :=
  {| fnmatch := fnmatch Sample.env;
     pdf_pages := pdf_pages Sample.env;
     docx_paragraphs := docx_paragraphs Sample.env;
     utf8_decode := utf8_decode Sample.env;
     open_for_writing := open_for_writing Sample.env;
     chat_completion := λ _ _, inl "Connection refused";
     json_loads := json_loads Sample.env;
     utcnow := utcnow Sample.env;
     pydantic_coerce := pydantic_coerce Sample.env |}.

Definition list_reply : Env :=
  {| fnmatch := fnmatch Sample.env;
     pdf_pages := pdf_pages Sample.env;
     docx_paragraphs := docx_paragraphs Sample.env;
     utf8_decode := utf8_decode Sample.env;
     open_for_writing := open_for_writing Sample.env;
     chat_completion := λ _ _, inr "[]";
     json_loads := λ s, if decide (s = "[]") then Some (JArr []) else None;
     utcnow := utcnow Sample.env;
     pydantic_coerce := pydantic_coerce Sample.env |}.

Definition read_only : Env :=
  {| fnmatch := fnmatch Sample.env;
     pdf_pages := pdf_pages Sample.env;
     docx_paragraphs := docx_paragraphs Sample.env;
     utf8_decode := utf8_decode Sample.env;
     open_for_writing := λ _, Some "[Errno 30] Read-only file system";
     chat_completion := chat_completion Sample.env;
     json_loads := json_loads Sample.env;
     utcnow := utcnow Sample.env;
     pydantic_coerce := pydantic_coerce Sample.env |}.

(** Two clock reads within the same second. *)
Definition same_second : Env :=
  {| fnmatch := fnmatch Sample.env;
     pdf_pages := pdf_pages Sample.env;
     docx_paragraphs := docx_paragraphs Sample.env;
     utf8_decode := utf8_decode Sample.env;
     open_for_writing := open_for_writing Sample.env;
     chat_completion := chat_completion Sample.env;
     json_loads := json_loads Sample.env;
     utcnow := λ n, {| strftime := "20240101_120000";
                       isoformat := "2024-01-01T12:00:00.00000" +:+ pretty n |};
     pydantic_coerce := pydantic_coerce Sample.env |}.

(** A world with nothing uploaded yet. *)
Definition blank : World :=
  {| upload_dir := ∅; results_dir := ∅; prompts_sent := []; clock_reads := 0;
     background := [] |}.

(** The world after the upload of lease.txt into [blank]. *)
Definition after_upload : World :=
  (upload_document Sample.env "lease.txt" (Sample.bytes "Lease agreement.") blank).2.

(** The world after a batch call for tax twice on doc1. *)
Definition after_batch : World :=
  (batch_analysis Sample.env "doc1" "txt" ["tax"; "tax"] Sample.world).2.

(** Two uploads within one second, report.v1.pdf and then report.v2.pdf. *)
Definition after_first : World :=
  (upload_document same_second "report.v1.pdf" (Sample.bytes "first") blank).2.

Definition after_second : World :=
  (upload_document same_second "report.v2.pdf" (Sample.bytes "second") after_first).2.

Definition first_md : DocumentMetadata :=
  {| md_document_id := "20240101_120000_report"; md_filename := "report.v1.pdf";
     md_file_type := "pdf"; md_upload_time := "2024-01-01T12:00:00.000001";
     md_file_size := 5; md_status := "uploaded" |}.

Definition second_md : DocumentMetadata :=
  {| md_document_id := "20240101_120000_report"; md_filename := "report.v2.pdf";
     md_file_type := "pdf"; md_upload_time := "2024-01-01T12:00:00.000003";
     md_file_size := 6; md_status := "uploaded" |}.

End Faulty.

Ltac run :=
  unfold endpoint, reraise, lift, lib, raise, now, glob_first, add_task,
    read_upload, write_upload, write_result, mbind, M_bind, mret, M_ret.

(** * Properties *)

(** ** Strings *)

Lemma slice_to_length (n : nat) (s : string) :
  String.length (Py.slice_to n s) = Nat.min n (String.length s).
Proof.
  revert s; induction n as [|n IH]; intros [|c s]; simpl; try reflexivity.
  by rewrite IH.
Qed.

Lemma slice_to_from (n : nat) (s : string) :
  s = Py.slice_to n s +:+ Py.slice_from n s.
Proof.
  revert s; induction n as [|n IH]; intros [|c s]; simpl; try reflexivity.
  change (String c s = String c (Py.slice_to n s +:+ Py.slice_from n s)).
  f_equal. apply IH.
Qed.

Lemma slice_to_all (n : nat) (s : string) :
  (String.length s ≤ n)%nat → Py.slice_to n s = s.
Proof.
  revert s; induction n as [|n IH]; intros [|c s]; simpl; intros Hlen;
    try reflexivity; try lia.
  rewrite IH; [reflexivity | lia].
Qed.

Lemma slice_to_app (n : nat) (s rest : string) :
  (n ≤ String.length s)%nat → Py.slice_to n (s +:+ rest) = Py.slice_to n s.
Proof.
  revert s; induction n as [|n IH]; intros [|c s] Hlen; simpl in Hlen;
    try reflexivity; try lia.
  change (Py.slice_to (S n) (String c (s +:+ rest)) = Py.slice_to (S n) (String c s)).
  simpl. rewrite IH; [reflexivity | lia].
Qed.

(** ** The prompt *)

(** C5. The prompt is the category/focus-area header, then the first 5000
    characters of the document text, then the fixed instructions; that
    slice is a prefix of the text of length min(5000, len), it is the whole
    text when the text has at most 5000 characters, and two texts with the
    same first 5000 characters give the same prompt. *)
Theorem prompt_embeds_first_5000 (analysis_type : string) (focus : list string) (text : string) :
  generate_analysis_prompt analysis_type text focus
    = prompt_head analysis_type focus +:+ Py.slice_to 5000 text +:+ prompt_tail
  ∧ text = Py.slice_to 5000 text +:+ Py.slice_from 5000 text
  ∧ String.length (Py.slice_to 5000 text) = Nat.min 5000 (String.length text)
  ∧ ((String.length text ≤ 5000)%nat → Py.slice_to 5000 text = text)
  ∧ (∀ rest rest' : string,
       (5000 ≤ String.length text)%nat →
       generate_analysis_prompt analysis_type (Py.slice_to 5000 text +:+ rest) focus
       = generate_analysis_prompt analysis_type (Py.slice_to 5000 text +:+ rest') focus)
  ∧ (∀ text' : string,
       Py.slice_to 5000 text' = Py.slice_to 5000 text →
       generate_analysis_prompt analysis_type text' focus
       = generate_analysis_prompt analysis_type text focus).
Proof.
  repeat split.
  - apply slice_to_from.
  - apply slice_to_length.
  - apply slice_to_all.
  - intros rest rest' Hlen. unfold generate_analysis_prompt.
    rewrite !slice_to_app; [reflexivity | |];
      rewrite slice_to_length; lia.
  - intros text' Heq. unfold generate_analysis_prompt. by rewrite Heq.
Qed.

#[local] Arguments Py.slice_to : simpl never.
#[local] Arguments Py.slice_from : simpl never.



Section Facts.
Context (E : Env).

Lemma call_openai_api_run prompt w :
  call_openai_api E prompt w =
    (match chat_completion E (prompts_sent w) prompt with
     | inr content => inr content
     | inl msg => inl (HTTPException 500 ("OpenAI API error: " +:+ msg))
     end, set_prompts_sent (prompts_sent w ++ [prompt]) w).
Proof.
  unfold call_openai_api; run.
  by destruct (chat_completion E (prompts_sent w) prompt).
Qed.


Lemma extract_text_from_pdf_run p w :
  extract_text_from_pdf E p w =
    (match upload_dir w !! p with
     | None => inl (HTTPException 400 ("Error reading PDF: " +:+
                 ("[Errno 2] No such file or directory: 'uploads/" +:+ p +:+ "'")))
     | Some file =>
         match pdf_pages E file with
         | inl msg => inl (HTTPException 400 ("Error reading PDF: " +:+ msg))
         | inr pages => inr (foldl (λ text page, text +:+ page) "" pages)
         end
     end, w).
Proof.
  unfold extract_text_from_pdf; run.
  destruct (upload_dir w !! p); [|reflexivity].
  by destruct (pdf_pages E _).
Qed.

Lemma extract_text_from_docx_run p w :
  extract_text_from_docx E p w =
    (match upload_dir w !! p with
     | None => inl (HTTPException 400 ("Error reading DOCX: " +:+
                 ("[Errno 2] No such file or directory: 'uploads/" +:+ p +:+ "'")))
     | Some file =>
         match docx_paragraphs E file with
         | inl msg => inl (HTTPException 400 ("Error reading DOCX: " +:+ msg))
         | inr paragraphs => inr (Py.join Py.LF paragraphs)
         end
     end, w).
Proof.
  unfold extract_text_from_docx; run.
  destruct (upload_dir w !! p); [|reflexivity].
  by destruct (docx_paragraphs E _).
Qed.

Lemma extract_text_from_txt_run p w :
  extract_text_from_txt E p w =
    (match upload_dir w !! p with
     | None => inl (HTTPException 400 ("Error reading TXT: " +:+
                 ("[Errno 2] No such file or directory: 'uploads/" +:+ p +:+ "'")))
     | Some file =>
         match utf8_decode E file with
         | inl msg => inl (HTTPException 400 ("Error reading TXT: " +:+ msg))
         | inr text => inr (Py.universal_newlines text)
         end
     end, w).
Proof.
  unfold extract_text_from_txt; run.
  destruct (upload_dir w !! p); [|reflexivity].
  by destruct (utf8_decode E _).
Qed.

Lemma extract_document_text_world p ft w :
  (extract_document_text E p ft w).2 = w.
Proof.
  unfold extract_document_text.
  repeat case_decide;
    rewrite ?extract_text_from_pdf_run, ?extract_text_from_docx_run,
      ?extract_text_from_txt_run; reflexivity.
Qed.

Lemma extract_document_text_http p ft w e w' :
  extract_document_text E p ft w = (inl e, w') → ∃ detail, e = HTTPException 400 detail.
Proof.
  unfold extract_document_text.
  repeat case_decide;
    rewrite ?extract_text_from_pdf_run, ?extract_text_from_docx_run,
      ?extract_text_from_txt_run; unfold raise;
    repeat case_match; intros [= <- <-]; eauto.
Qed.


Lemma AnalysisResponse_init_inr id ty st ts s k r c d response :
  AnalysisResponse_init E id ty st ts s k r c d = inr response →
  document_id response = id ∧ analysis_type response = ty
  ∧ status response = st ∧ timestamp response = ts.
Proof.
  unfold AnalysisResponse_init.
  repeat case_match; intros [= <-]; done.
Qed.

Lemma analyze_inr c id ft req w r w' :
  analyze E c id ft req w = (inr r, w') →
  ∃ prompt,
    w' = set_background (background w ++ [(id, AnalysisResponse_dict r)])
           (set_clock_reads (S (clock_reads w))
              (set_prompts_sent (prompts_sent w ++ [prompt]) w))
    ∧ document_id r = id ∧ analysis_type r = category_name c.
Proof.
  unfold analyze; run.
  destruct (head (glob E (id +:+ ".*") w)) as [p|]; [|discriminate].
  pose proof (extract_document_text_world p ft w) as Hw.
  destruct (extract_document_text E p ft w) as [[e|text] w1];
    simpl in Hw; subst w1.
  { by destruct e. }
  rewrite call_openai_api_run.
  destruct (chat_completion E _ _) as [msg|raw]; [discriminate|].
  repeat (destruct (py_get _ _ _) as [[]|?]; [discriminate..|]).
  destruct (AnalysisResponse_init _ _ _ _ _ _ _ _ _ _) as [[]|response] eqn:Hinit;
    [discriminate..|].
  intros [= <- <-]. apply AnalysisResponse_init_inr in Hinit as (? & ? & _).
  eexists. split; [reflexivity|done].
Qed.

Lemma save_analysis_result_world id data w :
  (save_analysis_result E id data w).2 = set_results_dir (persist1 E (results_dir w) (id, data)) w.
Proof.
  unfold save_analysis_result, persist1; run; simpl.
  destruct (open_for_writing E _); simpl; [by destruct w | reflexivity].
Qed.

Lemma run_background_tasks_run w :
  run_background_tasks E w =
    set_results_dir (persist E (background w) (results_dir w)) (set_background [] w).
Proof.
  unfold run_background_tasks, persist.
  change (results_dir w) with (results_dir (set_background [] w)).
  generalize (set_background [] w) as w0. generalize (background w) as tasks.
  induction tasks as [|task tasks IH]; intros w0; simpl.
  - by destruct w0.
  - rewrite IH, save_analysis_result_world. by destruct task.
Qed.

Lemma persist_snoc tasks id data results :
  open_for_writing E ("analysis_results/" +:+ result_file id) = None →
  persist E (tasks ++ [(id, data)]) results = <[result_file id := data]> (persist E tasks results).
Proof.
  intros Hopen. unfold persist. rewrite foldl_snoc. unfold persist1 at 1. simpl.
  by rewrite Hopen.
Qed.

Lemma get_analysis_results_run id w :
  get_analysis_results id w =
    (match results_dir w !! result_file id with
     | Some results => inr results
     | None => inl (HTTPException 404 "Analysis results not found")
     end, w).
Proof. unfold get_analysis_results; run. by destruct (results_dir w !! _). Qed.
End Facts.

Lemma AnalysisResponse_dict_type (r : AnalysisResponse) :
  py_get (AnalysisResponse_dict r) "analysis_type" JNull = inr (JStr (analysis_type r)).
Proof. unfold AnalysisResponse_dict, py_get. by simplify_map_eq. Qed.

Lemma category_name_inj (c1 c2 : Category) :
  category_name c1 = category_name c2 → c1 = c2.
Proof. by destruct c1, c2. Qed.

Section Stored.
Context (E : Env).

(** After a successful analysis and the run of the queued tasks, the
    response is what RESULTS_DIR holds under the document's result file. *)
Lemma analyze_then_persist c id ft req w r w' :
  open_for_writing E ("analysis_results/" +:+ result_file id) = None →
  analyze E c id ft req w = (inr r, w') →
  results_dir (run_background_tasks E w')
    = <[result_file id := AnalysisResponse_dict r]> (persist E (background w) (results_dir w))
  ∧ background (run_background_tasks E w') = []
  ∧ (∃ tasks : list (string * json), background w' = (tasks ++ [(id, AnalysisResponse_dict r)])%list)
  ∧ analysis_type r = category_name c.
Proof.
  intros Hopen Hrun. apply analyze_inr in Hrun as (prompt & -> & _ & Hty).
  rewrite run_background_tasks_run. simpl.
  rewrite persist_snoc by done. eauto.
Qed.

Lemma persist_nil results : persist E [] results = results.
Proof. reflexivity. Qed.
End Stored.

(** C8. Running the analysis of one category twice on one document: the
    second response is saved under the same result file as the first, the
    directory gains no new entry, and after the second save a retrieval
    returns the second response. *)
Theorem rerun_overwrites (E : Env) (c : Category) (id ft ft' : string)
    (req req' : AnalysisRequest) (w0 w1 w2 : World) (r1 r2 : AnalysisResponse) :
  open_for_writing E ("analysis_results/" +:+ result_file id) = None →
  analyze E c id ft req w0 = (inr r1, w1) →
  analyze E c id ft' req' (run_background_tasks E w1) = (inr r2, w2) →
  get_analysis_results id (run_background_tasks E w1)
    = (inr (AnalysisResponse_dict r1), run_background_tasks E w1)
  ∧ results_dir (run_background_tasks E w2)
    = <[result_file id := AnalysisResponse_dict r2]> (results_dir (run_background_tasks E w1))
  ∧ dom (results_dir (run_background_tasks E w2)) = dom (results_dir (run_background_tasks E w1))
  ∧ get_analysis_results id (run_background_tasks E w2)
    = (inr (AnalysisResponse_dict r2), run_background_tasks E w2).
Proof.
  intros Hopen H1 H2.
  destruct (analyze_then_persist E _ _ _ _ _ _ _ Hopen H1) as (Hres1 & Hbg1 & _ & _).
  destruct (analyze_then_persist E _ _ _ _ _ _ _ Hopen H2) as (Hres2 & _ & _ & _).
  rewrite Hbg1, persist_nil in Hres2.
  rewrite !get_analysis_results_run, Hres2, Hres1.
  rewrite !lookup_insert_eq. repeat split; try reflexivity.
  by rewrite insert_insert_eq, !dom_insert_L.
Qed.

(** C7. The task queued by a single-category endpoint is keyed by the
    document identifier alone; after analyses of two different categories on
    one document the result file holds the second response, whose
    [analysis_type] is the second category, and the first response is gone. *)
Theorem category_not_in_key (E : Env) (c1 c2 : Category) (id ft1 ft2 : string)
    (req1 req2 : AnalysisRequest) (w0 w1 w2 : World) (r1 r2 : AnalysisResponse) :
  c1 ≠ c2 →
  open_for_writing E ("analysis_results/" +:+ result_file id) = None →
  analyze E c1 id ft1 req1 w0 = (inr r1, w1) →
  analyze E c2 id ft2 req2 (run_background_tasks E w1) = (inr r2, w2) →
  (∃ tasks : list (string * json),
     background w1 = (tasks ++ [(id, AnalysisResponse_dict r1)])%list)
  ∧ background w2 = [(id, AnalysisResponse_dict r2)]
  ∧ results_dir (run_background_tasks E w1) !! result_file id
    = Some (AnalysisResponse_dict r1)
  ∧ results_dir (run_background_tasks E w2)
    = <[result_file id := AnalysisResponse_dict r2]> (results_dir (run_background_tasks E w1))
  ∧ get_analysis_results id (run_background_tasks E w2)
    = (inr (AnalysisResponse_dict r2), run_background_tasks E w2)
  ∧ analysis_type r2 = category_name c2
  ∧ AnalysisResponse_dict r1 ≠ AnalysisResponse_dict r2.
Proof.
  intros Hne Hopen H1 H2.
  destruct (analyze_then_persist E _ _ _ _ _ _ _ Hopen H1) as (Hres1 & Hbg1 & Htask1 & Hty1).
  destruct (analyze_then_persist E _ _ _ _ _ _ _ Hopen H2) as (Hres2 & _ & _ & Hty2).
  rewrite Hbg1, persist_nil in Hres2.
  apply analyze_inr in H2 as (prompt & Hw2 & _ & _).
  repeat split.
  - exact Htask1.
  - rewrite Hw2. simpl. by rewrite Hbg1.
  - rewrite Hres1. apply lookup_insert_eq.
  - exact Hres2.
  - rewrite get_analysis_results_run, Hres2. by rewrite lookup_insert_eq.
  - exact Hty2.
  - intros Heq.
    pose proof (AnalysisResponse_dict_type r1) as Ht1.
    rewrite Heq, AnalysisResponse_dict_type, Hty1, Hty2 in Ht1.
    injection Ht1 as Ht1. apply category_name_inj in Ht1. congruence.
Qed.


Lemma or_default_empty (c : Category) (given : option (list string)) :
  given = None ∨ given = Some [] ∨ given = Some (default_focus_areas c) →
  or_default given (default_focus_areas c) = default_focus_areas c.
Proof. intros [->|[->| ->]]; try reflexivity. by destruct c. Qed.

Section Prompts.
Context (E : Env).

Lemma analyze_focus c id ft req req' w :
  or_default (focus_areas req) (default_focus_areas c)
    = or_default (focus_areas req') (default_focus_areas c) →
  analyze E c id ft req w = analyze E c id ft req' w.
Proof. intros Heq. unfold analyze. by rewrite Heq. Qed.

End Prompts.


(** C6. An upload whose lower-cased extension is none of .pdf, .docx, .doc,
    .txt raises HTTPException 400 and leaves the world, the upload directory
    included, as it was. *)
Theorem upload_rejects_unsupported (E : Env) (filename : string) (content : list byte)
    (w : World) :
  Py.lower (Py.path_suffix filename) ∉ [".pdf"; ".docx"; ".doc"; ".txt"] →
  ∃ detail, upload_document E filename content w = (inl (HTTPException 400 detail), w).
Proof.
  intros Hext. unfold upload_document; run.
  rewrite decide_True; [eauto|].
  intros Hin. apply Hext. unfold allowed_types in Hin.
  rewrite !elem_of_union, !elem_of_singleton in Hin.
  rewrite !elem_of_cons. tauto.
Qed.

(** ** More on strings *)

Lemma app_cons (c : ascii) (s t : string) : String c s +:+ t = String c (s +:+ t).
Proof. reflexivity. Qed.

Lemma app_nil_r (s : string) : s +:+ "" = s.
Proof. induction s as [|c s IH]; [reflexivity|]. by rewrite app_cons, IH. Qed.

Lemma app_assoc (s t u : string) : (s +:+ t) +:+ u = s +:+ t +:+ u.
Proof. induction s as [|c s IH]; [reflexivity|]. by rewrite !app_cons, IH. Qed.

Lemma occurs_in_app_l (s t u : string) : occurs_in s t → occurs_in s (t +:+ u).
Proof.
  intros (pre & post & ->). exists pre, (post +:+ u). by rewrite !app_assoc.
Qed.

Lemma occurs_in_app_r (s t u : string) : occurs_in s t → occurs_in s (u +:+ t).
Proof.
  intros (pre & post & ->). exists (u +:+ pre), post. by rewrite !app_assoc.
Qed.

Lemma occurs_in_refl (s : string) : occurs_in s s.
Proof. exists "", "". by rewrite app_nil_r. Qed.

Lemma join_occurs (sep : string) (l : list string) (s : string) :
  s ∈ l → occurs_in s (Py.join sep l).
Proof.
  unfold Py.join. induction l as [|x l IH]; intros Hin.
  - by apply elem_of_nil in Hin.
  - apply elem_of_cons in Hin as [->|Hin].
    + destruct l as [|y l]; simpl; [apply occurs_in_refl|].
      apply occurs_in_app_l, occurs_in_refl.
    + destruct l as [|y l]; [by apply elem_of_nil in Hin|].
      change (occurs_in s (x +:+ sep +:+ String.concat sep (y :: l))).
      by apply occurs_in_app_r, occurs_in_app_r, IH.
Qed.

Lemma join_empty_sep (x : string) (l : list string) :
  Py.join "" (x :: l) = x +:+ Py.join "" l.
Proof. unfold Py.join. destruct l; simpl; [by rewrite app_nil_r | reflexivity]. Qed.

Lemma foldl_concat (acc : string) (pages : list string) :
  foldl (λ text page, text +:+ page) acc pages = acc +:+ Py.join "" pages.
Proof.
  revert acc; induction pages as [|page pages IH]; intros acc.
  - simpl. by rewrite app_nil_r.
  - rewrite join_empty_sep. simpl. by rewrite IH, app_assoc.
Qed.

Lemma universal_newlines_id (s : string) :
  Py.contains Py.CR s = false → Py.universal_newlines s = s.
Proof.
  induction s as [|c s IH]; [reflexivity|]. simpl.
  intros [Hc Hs]%orb_false_elim. apply bool_decide_eq_false in Hc.
  rewrite decide_False by done. by rewrite IH.
Qed.

(** ** Extraction *)

Section Extraction.
Context (E : Env).

Lemma extract_pdf p ft w file :
  upload_dir w !! p = Some file → Py.lower ft = "pdf" →
  extract_document_text E p ft w =
    (match pdf_pages E file with
     | inl msg => inl (HTTPException 400 ("Error reading PDF: " +:+ msg))
     | inr pages => inr (Py.join "" pages)
     end, w).
Proof.
  intros Hfile Hft. unfold extract_document_text.
  rewrite decide_True by done. rewrite extract_text_from_pdf_run, Hfile.
  destruct (pdf_pages E file); [reflexivity|]. by rewrite foldl_concat.
Qed.

Lemma extract_docx p ft w file :
  upload_dir w !! p = Some file → Py.lower ft ∈ ["docx"; "doc"] →
  extract_document_text E p ft w =
    (match docx_paragraphs E file with
     | inl msg => inl (HTTPException 400 ("Error reading DOCX: " +:+ msg))
     | inr paragraphs => inr (Py.join Py.LF paragraphs)
     end, w).
Proof.
  intros Hfile Hft. unfold extract_document_text.
  rewrite decide_False.
  - rewrite decide_True by done. by rewrite extract_text_from_docx_run, Hfile.
  - intros Heq. rewrite Heq in Hft. by apply elem_of_cons in Hft as [|[|[]%elem_of_nil]%elem_of_cons].
Qed.

Lemma extract_txt p ft w file :
  upload_dir w !! p = Some file → Py.lower ft = "txt" →
  extract_document_text E p ft w =
    (match utf8_decode E file with
     | inl msg => inl (HTTPException 400 ("Error reading TXT: " +:+ msg))
     | inr text => inr (Py.universal_newlines text)
     end, w).
Proof.
  intros Hfile Hft. unfold extract_document_text.
  rewrite decide_False by (by rewrite Hft).
  rewrite decide_False.
  - rewrite decide_True by done. by rewrite extract_text_from_txt_run, Hfile.
  - rewrite Hft. by intros [|[|[]%elem_of_nil]%elem_of_cons]%elem_of_cons.
Qed.

Lemma extract_parser_failure p ft w file prefix cause :
  upload_dir w !! p = Some file →
  parser_failure E ft file prefix cause →
  extract_document_text E p ft w = (inl (HTTPException 400 (prefix +:+ cause)), w).
Proof.
  intros Hfile [(Hft & Hfail & ->)|[(Hft & Hfail & ->)|(Hft & Hfail & ->)]].
  - by rewrite (extract_pdf _ _ _ _ Hfile Hft), Hfail.
  - by rewrite (extract_docx _ _ _ _ Hfile Hft), Hfail.
  - by rewrite (extract_txt _ _ _ _ Hfile Hft), Hfail.
Qed.
End Extraction.

(** C9, as amended. For a stored file the selected parser accepts: the PDF
    path returns the page texts concatenated in order with no separator, the
    Word path the paragraph texts joined by newlines, the plain-text path the
    UTF-8 decoding of the bytes with every CR LF and lone CR turned into LF
    (the decoding itself when it has no CR). *)
Theorem extraction_rules (E : Env) (p : string) (w : World) (file : list byte) :
  upload_dir w !! p = Some file →
  (∀ ft pages, Py.lower ft = "pdf" → pdf_pages E file = inr pages →
     extract_document_text E p ft w = (inr (Py.join "" pages), w))
  ∧ (∀ ft page1 page2, Py.lower ft = "pdf" → pdf_pages E file = inr [page1; page2] →
     extract_document_text E p ft w = (inr (page1 +:+ page2), w))
  ∧ (∀ ft paragraphs, Py.lower ft ∈ ["docx"; "doc"] →
     docx_paragraphs E file = inr paragraphs →
     extract_document_text E p ft w = (inr (Py.join Py.LF paragraphs), w))
  ∧ (∀ ft text, Py.lower ft = "txt" → utf8_decode E file = inr text →
     extract_document_text E p ft w = (inr (Py.universal_newlines text), w)
     ∧ (Py.contains Py.CR text = false → Py.universal_newlines text = text)).
Proof.
  intros Hfile. split; [|split; [|split]].
  - intros ft pages Hft Hpages. by rewrite (extract_pdf E _ _ _ _ Hfile Hft), Hpages.
  - intros ft page1 page2 Hft Hpages.
    by rewrite (extract_pdf E _ _ _ _ Hfile Hft), Hpages.
  - intros ft paragraphs Hft Hpars.
    by rewrite (extract_docx E _ _ _ _ Hfile Hft), Hpars.
  - intros ft text Hft Htext. split.
    + by rewrite (extract_txt E _ _ _ _ Hfile Hft), Htext.
    + apply universal_newlines_id.
Qed.

(** ** The batch endpoint *)

Lemma invalid_types_spec (analysis_types : list string) (t : string) :
  t ∈ (list_to_set analysis_types ∖ valid_types : gset string)
  ↔ t ∈ analysis_types ∧ t ∉ valid_types.
Proof. by rewrite elem_of_difference, elem_of_list_to_set. Qed.

Lemma invalid_types_empty (analysis_types : list string) :
  (∀ t, t ∈ analysis_types → t ∈ valid_types) →
  (list_to_set analysis_types ∖ valid_types : gset string) = ∅.
Proof.
  intros Hvalid. apply set_eq. intros t. rewrite invalid_types_spec, elem_of_empty.
  split; [|done]. intros [Hin Hnot]. by apply Hnot, Hvalid.
Qed.


Lemma focus_areas_map_category (c : Category) :
  focus_areas_map !! category_name c = Some (default_focus_areas c).
Proof. by destruct c; vm_compute. Qed.

Lemma analyses_batch (id ts : string) (results : gmap string json) (n : Z) :
  analyses (JObj (list_to_map [
    ("document_id", JStr id); ("analysis_type", JStr "batch");
    ("status", JStr "completed"); ("timestamp", JStr ts);
    ("analyses", JObj results); ("analysis_count", JInt n)])) = results.
Proof.
  unfold analyses. cbn [list_to_map foldr uncurry curry fst snd].
  by simplify_map_eq.
Qed.

Section Batch.
Context (E : Env).

Lemma batch_step_run text results ty w :
  batch_step E text results ty w =
    match focus_areas_map !! ty with
    | None => (inl (Exception ("'" +:+ ty +:+ "'")), w)
    | Some focus =>
        (match chat_completion E (prompts_sent w)
                 (generate_analysis_prompt ty text focus) with
         | inr raw => inr (<[ty := parse_reply E raw]> results)
         | inl msg => inl (HTTPException 500 ("OpenAI API error: " +:+ msg))
         end,
         set_prompts_sent (prompts_sent w ++ [generate_analysis_prompt ty text focus]) w)
    end.
Proof.
  unfold batch_step; run.
  destruct (focus_areas_map !! ty) as [focus|]; [|reflexivity].
  rewrite call_openai_api_run. by destruct (chat_completion E _ _).
Qed.


Lemma batch_extraction_failure id ft tys w p e :
  head (glob E (id +:+ ".*") w) = Some p →
  (∀ t, t ∈ tys → t ∈ valid_types) →
  extract_document_text E p ft w = (inl (HTTPException 400 e), w) →
  batch_analysis E id ft tys w = (inl (HTTPException 400 e), w).
Proof.
  intros Hglob Hvalid Hext. unfold batch_analysis; run. rewrite Hglob.
  rewrite decide_False by (intros Hinvalid; by apply Hinvalid, invalid_types_empty).
  by rewrite Hext.
Qed.
End Batch.

(** C3, as amended. When the parser selected by the file type raises on the
    stored bytes, every single-category endpoint and the batch endpoint raise
    HTTPException 400 whose detail is the "Error reading ..." prefix followed
    by the cause text; 400 is not a 5xx status. *)
Theorem extraction_failure_is_400 (E : Env) (c : Category) (id ft : string)
    (req : AnalysisRequest) (tys : list string) (w : World) (p : string)
    (file : list byte) (prefix cause : string) :
  head (glob E (id +:+ ".*") w) = Some p →
  upload_dir w !! p = Some file →
  parser_failure E ft file prefix cause →
  analyze E c id ft req w = (inl (HTTPException 400 (prefix +:+ cause)), w)
  ∧ ((∀ t, t ∈ tys → t ∈ valid_types) →
     batch_analysis E id ft tys w = (inl (HTTPException 400 (prefix +:+ cause)), w))
  ∧ ¬ server_error (HTTPException 400 (prefix +:+ cause)).
Proof.
  intros Hglob Hfile Hfail.
  pose proof (extract_parser_failure E _ _ _ _ _ _ Hfile Hfail) as Hext.
  split; [|split].
  - unfold analyze; run. by rewrite Hglob, Hext.
  - intros Hvalid. by apply (batch_extraction_failure E _ _ _ _ p).
  - intros (code & [= <-] & Hcode). lia.
Qed.



(** ** The fallback for a reply that is not JSON *)


(** * Runs on the sample environment *)



(** C3, as stated, fails: a stored file that is no PDF, analysed as PDF,
    gives status 400. *)
Lemma corrupt_pdf_is_a_client_error :
  Sample.world.(upload_dir) !! "scan.pdf" = Some (Sample.bytes "not a pdf")
  ∧ pdf_pages Sample.env (Sample.bytes "not a pdf") = inl "EOF marker not found"
  ∧ analyze_contract Sample.env "scan" "pdf" (default_request Contract) Sample.world
    = (inl (HTTPException 400 "Error reading PDF: EOF marker not found"), Sample.world)
  ∧ ¬ server_error (HTTPException 400 "Error reading PDF: EOF marker not found").
Proof.
  split; [vm_compute; reflexivity|]. split; [vm_compute; reflexivity|].
  split; [vm_compute; reflexivity|].
  intros (code & [= <-] & Hcode). lia.
Qed.


(** C9, as stated, fails: the bytes a CR LF b decode to a CR LF b, and the
    plain-text path returns a LF b. *)
Lemma crlf_text_is_not_the_decoded_bytes :
  Sample.world.(upload_dir) !! "memo.txt" = Some [x61; x0d; x0a; x62]
  ∧ utf8_decode Sample.env [x61; x0d; x0a; x62]
    = inr (String "a" (String "013" (String "010" "b")))
  ∧ extract_document_text Sample.env "memo.txt" "txt" Sample.world
    = (inr (String "a" (String "010" "b")), Sample.world)
  ∧ String "a" (String "010" "b") ≠ String "a" (String "013" (String "010" "b")).
Proof.
  split; [vm_compute; reflexivity|]. split; [vm_compute; reflexivity|].
  split; [vm_compute; reflexivity|]. discriminate.
Qed.

(** ** The theorems at the sample run *)



Lemma extraction_failure_is_400_witness :
  parser_failure Sample.env "pdf" (Sample.bytes "not a pdf")
    "Error reading PDF: " "EOF marker not found"
  ∧ analyze Sample.env Tax "scan" "pdf" (default_request Tax) Sample.world
    = (inl (HTTPException 400 ("Error reading PDF: " +:+ "EOF marker not found")),
       Sample.world).
Proof.
  assert (parser_failure Sample.env "pdf" (Sample.bytes "not a pdf")
            "Error reading PDF: " "EOF marker not found") as Hfail.
  { left. repeat split; vm_compute; reflexivity. }
  split; [exact Hfail|].
  apply (extraction_failure_is_400 Sample.env Tax "scan" "pdf" (default_request Tax)
           ["tax"] Sample.world "scan.pdf" (Sample.bytes "not a pdf")).
  - vm_compute; reflexivity.
  - vm_compute; reflexivity.
  - exact Hfail.
Defined.


Lemma prompt_embeds_first_5000_witness :
  generate_analysis_prompt "tax" "Lease agreement." ["credits"]
  = prompt_head "tax" ["credits"] +:+ Py.slice_to 5000 "Lease agreement." +:+ prompt_tail
  ∧ Py.slice_to 5000 "Lease agreement." = "Lease agreement.".
Proof.
  destruct (prompt_embeds_first_5000 "tax" ["credits"] "Lease agreement.")
    as (Hprompt & _ & _ & Hshort & _).
  split; [exact Hprompt|]. apply Hshort. vm_compute. lia.
Defined.

Lemma upload_rejects_unsupported_witness :
  Py.lower (Py.path_suffix "evil.EXE") = ".exe"
  ∧ ∃ detail,
      upload_document Sample.env "evil.EXE" (Sample.bytes "MZ") Sample.world
        = (inl (HTTPException 400 detail), Sample.world).
Proof.
  split; [vm_compute; reflexivity|].
  apply (upload_rejects_unsupported Sample.env "evil.EXE" (Sample.bytes "MZ") Sample.world).
  intros Hin. apply list_elem_of_In in Hin. vm_compute in Hin.
  destruct Hin as [|[|[|[|[]]]]]; discriminate.
Defined.

Lemma category_not_in_key_witness :
  ∃ r1 r2,
    analyze Sample.env Contract "doc1" "txt" (default_request Contract) Sample.world
      = (inr r1, Sample.after_contract)
    ∧ analyze Sample.env Tax "doc1" "txt" (default_request Tax)
        (run_background_tasks Sample.env Sample.after_contract)
      = (inr r2, Sample.after_tax)
    ∧ get_analysis_results "doc1" (run_background_tasks Sample.env Sample.after_tax)
      = (inr (AnalysisResponse_dict r2), run_background_tasks Sample.env Sample.after_tax)
    ∧ analysis_type r2 = "tax"
    ∧ AnalysisResponse_dict r1 ≠ AnalysisResponse_dict r2.
Proof.
  exists (fallback_response Contract "doc1" "2024-01-01T12:00:00" Sample.reply0),
         (fallback_response Tax "doc1" "2024-01-01T12:00:01" Sample.reply1).
  assert (analyze Sample.env Contract "doc1" "txt" (default_request Contract) Sample.world
          = (inr (fallback_response Contract "doc1" "2024-01-01T12:00:00" Sample.reply0),
             Sample.after_contract)) as H1 by (vm_compute; reflexivity).
  assert (analyze Sample.env Tax "doc1" "txt" (default_request Tax)
            (run_background_tasks Sample.env Sample.after_contract)
          = (inr (fallback_response Tax "doc1" "2024-01-01T12:00:01" Sample.reply1),
             Sample.after_tax)) as H2 by (vm_compute; reflexivity).
  destruct (category_not_in_key Sample.env Contract Tax "doc1" "txt" "txt"
              (default_request Contract) (default_request Tax)
              Sample.world Sample.after_contract Sample.after_tax _ _
              ltac:(discriminate) eq_refl H1 H2)
    as (_ & _ & _ & _ & Hget & Hty & Hne).
  auto.
Defined.

Lemma rerun_overwrites_witness :
  ∃ r1 r2,
    analyze Sample.env Contract "doc1" "txt" (default_request Contract) Sample.world
      = (inr r1, Sample.after_contract)
    ∧ analyze Sample.env Contract "doc1" "txt" (default_request Contract)
        (run_background_tasks Sample.env Sample.after_contract)
      = (inr r2, Sample.after_contract_again)
    ∧ get_analysis_results "doc1" (run_background_tasks Sample.env Sample.after_contract)
      = (inr (AnalysisResponse_dict r1),
         run_background_tasks Sample.env Sample.after_contract)
    ∧ get_analysis_results "doc1"
        (run_background_tasks Sample.env Sample.after_contract_again)
      = (inr (AnalysisResponse_dict r2),
         run_background_tasks Sample.env Sample.after_contract_again)
    ∧ timestamp r1 ≠ timestamp r2.
Proof.
  exists (fallback_response Contract "doc1" "2024-01-01T12:00:00" Sample.reply0),
         (fallback_response Contract "doc1" "2024-01-01T12:00:01" Sample.reply1).
  assert (analyze Sample.env Contract "doc1" "txt" (default_request Contract) Sample.world
          = (inr (fallback_response Contract "doc1" "2024-01-01T12:00:00" Sample.reply0),
             Sample.after_contract)) as H1 by (vm_compute; reflexivity).
  assert (analyze Sample.env Contract "doc1" "txt" (default_request Contract)
            (run_background_tasks Sample.env Sample.after_contract)
          = (inr (fallback_response Contract "doc1" "2024-01-01T12:00:01" Sample.reply1),
             Sample.after_contract_again)) as H2 by (vm_compute; reflexivity).
  destruct (rerun_overwrites Sample.env Contract "doc1" "txt" "txt"
              (default_request Contract) (default_request Contract)
              Sample.world Sample.after_contract Sample.after_contract_again _ _
              eq_refl H1 H2)
    as (Hget1 & _ & _ & Hget2).
  repeat split; try assumption. discriminate.
Defined.

Lemma extraction_rules_witness :
  Sample.world.(upload_dir) !! "doc1.txt" = Some (Sample.bytes "Lease agreement.")
  ∧ extract_document_text Sample.env "doc1.txt" "TXT" Sample.world
    = (inr (Py.universal_newlines "Lease agreement."), Sample.world).
Proof.
  assert (Sample.world.(upload_dir) !! "doc1.txt" = Some (Sample.bytes "Lease agreement."))
    as Hfile by (vm_compute; reflexivity).
  split; [exact Hfile|].
  destruct (extraction_rules Sample.env "doc1.txt" Sample.world _ Hfile)
    as (_ & _ & _ & Htxt).
  apply Htxt; vm_compute; reflexivity.
Defined.


(** * Further properties of the handlers *)

(** ** How a single-category endpoint fails *)

Section Failures.
Context (E : Env).



Lemma extract_unsupported p ft w :
  Py.lower ft ∉ supported_types →
  extract_document_text E p ft w
  = (inl (HTTPException 400 ("Unsupported file type: " +:+ ft)), w).
Proof.
  intros Hft. unfold extract_document_text, supported_types in *.
  rewrite !not_elem_of_cons in Hft. destruct Hft as (? & ? & ? & ? & _).
  rewrite decide_False by done.
  rewrite decide_False
    by (by intros [|[|[]%elem_of_nil]%elem_of_cons]%elem_of_cons).
  by rewrite decide_False by done.
Qed.

Lemma analyze_extract_error c id ft req w p e :
  head (glob E (id +:+ ".*") w) = Some p →
  extract_document_text E p ft w = (inl (HTTPException 400 e), w) →
  analyze E c id ft req w = (inl (HTTPException 400 e), w).
Proof. intros Hglob Hext. unfold analyze; run. by rewrite Hglob, Hext. Qed.

Lemma py_get_not_dict v key dflt :
  (∀ m, v ≠ JObj m) →
  py_get v key dflt
  = inl (Exception ("'" +:+ type_name v +:+ "' object has no attribute 'get'")).
Proof. intros Hv. destruct v; try reflexivity. by destruct (Hv m). Qed.

End Failures.


(** X2. For a file type that, lower-cased, is none of pdf, docx, doc, txt, a
    single-category endpoint on a document that is found raises 400
    "Unsupported file type: <the file type as given>", and so does the batch
    endpoint on valid categories; the stored file is not read and the world
    is unchanged. *)
Theorem unsupported_file_type_is_400 (E : Env) (c : Category) (id ft : string)
    (req : AnalysisRequest) (tys : list string) (w : World) (p : string) :
  head (glob E (id +:+ ".*") w) = Some p →
  Py.lower ft ∉ supported_types →
  (∀ t, t ∈ tys → t ∈ valid_types) →
  analyze E c id ft req w
  = (inl (HTTPException 400 ("Unsupported file type: " +:+ ft)), w)
  ∧ batch_analysis E id ft tys w
    = (inl (HTTPException 400 ("Unsupported file type: " +:+ ft)), w).
Proof.
  intros Hglob Hft Hvalid.
  pose proof (extract_unsupported E p ft w Hft) as Hext. split.
  - by apply (analyze_extract_error E _ _ _ _ _ p).
  - by apply (batch_extraction_failure E _ _ _ _ p).
Qed.

(** X3. When the service call raises, a single-category endpoint raises 500
    "OpenAI API error: <cause>"; the prompt has been handed to the service,
    but the clock is not read and no save is queued. *)
Theorem service_failure_is_500 (E : Env) (c : Category) (id ft : string)
    (req : AnalysisRequest) (w : World) (p text cause : string) :
  head (glob E (id +:+ ".*") w) = Some p →
  extract_document_text E p ft w = (inr text, w) →
  chat_completion E (prompts_sent w)
    (generate_analysis_prompt (prompt_label c) text
       (or_default (focus_areas req) (default_focus_areas c))) = inl cause →
  analyze E c id ft req w
  = (inl (HTTPException 500 ("OpenAI API error: " +:+ cause)),
     set_prompts_sent
       (prompts_sent w ++
        [generate_analysis_prompt (prompt_label c) text
           (or_default (focus_areas req) (default_focus_areas c))]) w).
Proof.
  intros Hglob Hext Hchat. unfold analyze; run. rewrite Hglob, Hext.
  by rewrite call_openai_api_run, Hchat.
Qed.

(** X4. When the reply is valid JSON but not an object (a list, a string, a
    number, null), a single-category endpoint raises 500 with the category's
    "... analysis failed: " prefix and the text of the AttributeError; nothing
    is queued. The batch loop takes the same reply as the category's entry. *)
Theorem non_object_reply_is_500 (E : Env) (c : Category) (id ft : string)
    (req : AnalysisRequest) (w : World) (p text raw : string) (v : json) :
  head (glob E (id +:+ ".*") w) = Some p →
  extract_document_text E p ft w = (inr text, w) →
  chat_completion E (prompts_sent w)
    (generate_analysis_prompt (prompt_label c) text
       (or_default (focus_areas req) (default_focus_areas c))) = inr raw →
  json_loads E raw = Some v →
  (∀ m, v ≠ JObj m) →
  (∃ w', analyze E c id ft req w
         = (inl (HTTPException 500
                   (failure_prefix c +:+
                    ("'" +:+ type_name v +:+ "' object has no attribute 'get'"))), w')
         ∧ background w' = background w)
  ∧ (∀ ty focus results text0 w0,
       focus_areas_map !! ty = Some focus →
       chat_completion E (prompts_sent w0) (generate_analysis_prompt ty text0 focus)
         = inr raw →
       (batch_step E text0 results ty w0).1 = inr (<[ty := v]> results)).
Proof.
  intros Hglob Hext Hchat Hjson Hv. split.
  - eexists. unfold analyze; run. rewrite Hglob, Hext.
    rewrite call_openai_api_run, Hchat.
    unfold parse_reply. rewrite Hjson.
    rewrite (py_get_not_dict v "summary" JNull Hv). split; reflexivity.
  - intros ty focus results text0 w0 Hfocus Hreply.
    rewrite batch_step_run, Hfocus, Hreply. unfold parse_reply. by rewrite Hjson.
Qed.

(** ** What a handler leaves behind *)

Lemma analyze_reach_keeps (w w' : World) :
  analyze_reach w w' →
  background w' = background w ∧ results_dir w' = results_dir w
  ∧ upload_dir w' = upload_dir w.
Proof. by intros []. Qed.

Lemma http_codes (code : nat) :
  code = 400 ∨ code = 404 ∨ code = 500 → code ∈ [400; 404; 500].
Proof. intros [->|[->| ->]]; apply list_elem_of_In; simpl; auto. Qed.

Section Effects.
Context (E : Env).

Lemma py_get_inl v key dflt e :
  py_get v key dflt = inl e → ∃ msg, e = Exception msg.
Proof. destruct v; intros [= <-]; eauto. Qed.

Lemma AnalysisResponse_init_inl id ty st ts s k r c d e :
  AnalysisResponse_init E id ty st ts s k r c d = inl e → ∃ msg, e = Exception msg.
Proof.
  unfold AnalysisResponse_init. repeat case_match; intros [= <-]; eauto.
Qed.

Lemma analyze_inl c id ft req w e w' :
  analyze E c id ft req w = (inl e, w') →
  ∃ code detail, e = HTTPException code detail ∧ code ∈ [400; 404; 500]
                 ∧ analyze_reach w w'.
Proof.
  unfold analyze; run.
  destruct (head (glob E (id +:+ ".*") w)) as [p|].
  2:{ intros [= <- <-]. eexists _, _. split; [done|]. split; [|constructor].
      apply http_codes; auto. }
  pose proof (extract_document_text_world E p ft w) as Hw.
  destruct (extract_document_text E p ft w) as [[e0|text] w1] eqn:Hext;
    simpl in Hw; subst w1.
  { apply extract_document_text_http in Hext as [d ->]. intros [= <- <-].
    eexists _, _. split; [done|]. split; [|constructor]. apply http_codes; auto. }
  rewrite call_openai_api_run.
  destruct (chat_completion E _ _) as [msg|raw].
  { intros [= <- <-]. eexists _, _. split; [done|]. split; [|constructor].
    apply http_codes; auto. }
  repeat (destruct (py_get _ _ _) as [e1|?] eqn:Hget;
          [apply py_get_inl in Hget as [msg ->]; intros [= <- <-];
           eexists _, _; (split; [done|]); (split; [|apply reach_clock]);
           apply http_codes; auto|clear Hget]).
  destruct (AnalysisResponse_init _ _ _ _ _ _ _ _ _ _) as [e1|response] eqn:Hinit.
  - apply AnalysisResponse_init_inl in Hinit as [msg ->]. intros [= <- <-].
    eexists _, _. split; [done|]. split; [|apply reach_clock].
    apply http_codes; auto.
  - discriminate.
Qed.

Lemma batch_loop text tys : ∀ results w,
  background (foldM (batch_step E text) results tys w).2 = background w
  ∧ results_dir (foldM (batch_step E text) results tys w).2 = results_dir w
  ∧ upload_dir (foldM (batch_step E text) results tys w).2 = upload_dir w
  ∧ clock_reads (foldM (batch_step E text) results tys w).2 = clock_reads w
  ∧ match (foldM (batch_step E text) results tys w).1 with
    | inr results' =>
        dom results' = dom results ∪ list_to_set tys
        ∧ length (prompts_sent (foldM (batch_step E text) results tys w).2)
          = length (prompts_sent w) + length tys
    | inl e => (∃ detail, e = HTTPException 500 detail) ∨ (∃ msg, e = Exception msg)
    end.
Proof.
  induction tys as [|ty tys IH]; intros results w.
  - simpl. repeat split; try reflexivity.
    + apply set_eq. intros k. rewrite elem_of_union, elem_of_empty. tauto.
    + lia.
  - cbn [foldM]. unfold mbind, M_bind. rewrite batch_step_run.
    destruct (focus_areas_map !! ty) as [focus|]; [|simpl; eauto 10].
    destruct (chat_completion E _ _) as [msg|raw]; [simpl; eauto 10|].
    destruct (IH (<[ty := parse_reply E raw]> results)
                 (set_prompts_sent
                    (prompts_sent w ++ [generate_analysis_prompt ty text focus]) w))
      as (Hbg & Hres & Hup & Hclock & Hout).
    rewrite Hbg, Hres, Hup, Hclock. repeat split; try reflexivity.
    destruct (foldM _ _ _ _).1 as [e|results']; [exact Hout|].
    destruct Hout as [Hdom Hlen]. split.
    + rewrite Hdom, dom_insert_L. apply set_eq. intros k.
      rewrite list_to_set_cons, !elem_of_union. tauto.
    + rewrite Hlen. simpl. rewrite length_app. simpl. lia.
Qed.

Lemma analysis_count_batch (id ts : string) (results : gmap string json) (n : Z) :
  analysis_count (JObj (list_to_map [
    ("document_id", JStr id); ("analysis_type", JStr "batch");
    ("status", JStr "completed"); ("timestamp", JStr ts);
    ("analyses", JObj results); ("analysis_count", JInt n)])) = Some n.
Proof.
  unfold analysis_count. cbn [list_to_map foldr uncurry curry fst snd].
  by simplify_map_eq.
Qed.

Lemma batch_inr id ft tys w data w' :
  batch_analysis E id ft tys w = (inr data, w') →
  dom (analyses data) = list_to_set tys
  ∧ analysis_count data = Some (Z.of_nat (length tys))
  ∧ length (prompts_sent w') = length (prompts_sent w) + length tys
  ∧ clock_reads w' = S (clock_reads w)
  ∧ background w' = background w ++ [(id +:+ "_batch", data)]
  ∧ results_dir w' = results_dir w
  ∧ upload_dir w' = upload_dir w
  ∧ (∀ t, t ∈ tys → t ∈ valid_types).
Proof.
  unfold batch_analysis; run.
  destruct (head (glob E (id +:+ ".*") w)) as [p|]; [|discriminate].
  case_decide as Hinvalid; [discriminate|].
  pose proof (extract_document_text_world E p ft w) as Hw.
  destruct (extract_document_text E p ft w) as [[e0|text] w1];
    simpl in Hw; subst w1.
  { by destruct e0. }
  destruct (batch_loop text tys ∅ w) as (Hbg & Hres & Hup & Hclock & Hout).
  destruct (foldM (batch_step E text) ∅ tys w) as [[e|results] w1];
    cbn [fst snd] in Hbg, Hres, Hup, Hclock, Hout.
  { by destruct e. }
  cbv beta iota. intros [Hdata Hw']%pair_equal_spec.
  apply (inj inr) in Hdata. subst data w'. destruct Hout as [Hdom Hlen].
  rewrite analyses_batch, analysis_count_batch.
  cbn [clock_reads set_clock_reads background set_background results_dir upload_dir
       prompts_sent].
  rewrite Hdom, dom_empty_L, Hlen, Hclock, Hbg, Hres, Hup.
  repeat split; try reflexivity.
  - apply set_eq. intros k. rewrite elem_of_union, elem_of_empty. tauto.
  - intros t Hin. destruct (decide (t ∈ valid_types)) as [|Hnot]; [done|].
    destruct (not_elem_of_empty (C:=gset string) t). rewrite <- Hinvalid.
    by apply invalid_types_spec.
Qed.

Lemma batch_inl id ft tys w e w' :
  batch_analysis E id ft tys w = (inl e, w') →
  ∃ code detail, e = HTTPException code detail ∧ code ∈ [400; 404; 500]
    ∧ background w' = background w ∧ results_dir w' = results_dir w
    ∧ upload_dir w' = upload_dir w.
Proof.
  unfold batch_analysis; run.
  destruct (head (glob E (id +:+ ".*") w)) as [p|].
  2:{ intros [= <- <-]. eexists _, _. split; [done|]. split; [|done].
      apply http_codes; auto. }
  case_decide as Hinvalid.
  { intros [= <- <-]. eexists _, _. split; [done|]. split; [|done].
    apply http_codes; auto. }
  pose proof (extract_document_text_world E p ft w) as Hw.
  destruct (extract_document_text E p ft w) as [[e0|text] w1] eqn:Hext;
    simpl in Hw; subst w1.
  { apply extract_document_text_http in Hext as [d ->]. intros [= <- <-].
    eexists _, _. split; [done|]. split; [|done]. apply http_codes; auto. }
  destruct (batch_loop text tys ∅ w) as (Hbg & Hres & Hup & Hclock & Hout).
  destruct (foldM (batch_step E text) ∅ tys w) as [[e1|results] w1]; simpl in *.
  - destruct Hout as [[d ->]|[msg ->]]; intros [= <- <-];
      eexists _, _; (split; [done|]); (split; [|done]); apply http_codes; auto.
  - discriminate.
Qed.

End Effects.

Lemma result_file_batch_ne (id : string) : result_file (id +:+ "_batch") ≠ result_file id.
Proof.
  unfold result_file. rewrite app_assoc. intros Heq.
  apply (inj (String.app id)) in Heq. discriminate.
Qed.

Lemma size_list_to_set_le (l : list string) :
  size (list_to_set l : gset string) ≤ length l.
Proof.
  induction l as [|a l IH].
  - rewrite list_to_set_nil, size_empty. reflexivity.
  - rewrite list_to_set_cons, size_union_alt, size_singleton.
    assert (size (list_to_set l ∖ {[a]} : gset string) ≤ size (list_to_set l : gset string))
      by (apply subseteq_size, subseteq_difference_l; done).
    simpl. lia.
Qed.

Section Success.
Context (E : Env).

Lemma analyze_inr_fields c id ft req w r w' :
  analyze E c id ft req w = (inr r, w') →
  document_id r = id ∧ analysis_type r = category_name c
  ∧ status r = "completed" ∧ timestamp r = isoformat (utcnow E (clock_reads w)).
Proof.
  unfold analyze; run.
  destruct (head (glob E (id +:+ ".*") w)) as [p|]; [|discriminate].
  pose proof (extract_document_text_world E p ft w) as Hw.
  destruct (extract_document_text E p ft w) as [[e|text] w1];
    simpl in Hw; subst w1.
  { by destruct e. }
  rewrite call_openai_api_run.
  destruct (chat_completion E _ _) as [msg|raw]; [discriminate|].
  repeat (destruct (py_get _ _ _) as [[]|?]; [discriminate..|]).
  destruct (AnalysisResponse_init _ _ _ _ _ _ _ _ _ _) as [[]|response] eqn:Hinit;
    [discriminate..|].
  intros [= <- <-]. by apply AnalysisResponse_init_inr in Hinit.
Qed.

End Success.

(** X5. Whatever makes a single-category endpoint fail, what it raises is an
    HTTPException with status 400, 404 or 500, and the failed call has queued
    no save and has changed neither directory. *)
Theorem endpoint_failure_is_http (E : Env) (c : Category) (id ft : string)
    (req : AnalysisRequest) (w w' : World) (e : exn) :
  analyze E c id ft req w = (inl e, w') →
  (∃ code detail, e = HTTPException code detail ∧ code ∈ [400; 404; 500])
  ∧ background w' = background w
  ∧ results_dir w' = results_dir w
  ∧ upload_dir w' = upload_dir w.
Proof.
  intros Hrun. apply analyze_inl in Hrun as (code & detail & -> & Hcode & Hreach).
  split; [eauto|]. by apply analyze_reach_keeps.
Qed.

(** X6. Whatever makes the batch endpoint fail, also in the middle of the
    loop after some categories were analysed, what it raises is an
    HTTPException with status 400, 404 or 500, and nothing is queued for
    saving: no partial batch result is ever persisted. *)
Theorem batch_failure_is_http (E : Env) (id ft : string) (tys : list string)
    (w w' : World) (e : exn) :
  batch_analysis E id ft tys w = (inl e, w') →
  (∃ code detail, e = HTTPException code detail ∧ code ∈ [400; 404; 500])
  ∧ background w' = background w
  ∧ results_dir (run_background_tasks E w') = results_dir (run_background_tasks E w).
Proof.
  intros Hrun.
  apply batch_inl in Hrun as (code & detail & -> & Hcode & Hbg & Hres & _).
  split; [eauto|]. split; [exact Hbg|].
  rewrite !run_background_tasks_run. simpl. by rewrite Hbg, Hres.
Qed.

(** X7. A single-category endpoint that returns has read the clock once and
    sent one prompt; its response echoes the identifier it was given, names
    the endpoint's category, has status "completed" and the clock reading as
    timestamp, and the one queued save carries that response. *)
Theorem analysis_success_effects (E : Env) (c : Category) (id ft : string)
    (req : AnalysisRequest) (w w' : World) (r : AnalysisResponse) :
  analyze E c id ft req w = (inr r, w') →
  document_id r = id
  ∧ analysis_type r = category_name c
  ∧ status r = "completed"
  ∧ timestamp r = isoformat (utcnow E (clock_reads w))
  ∧ clock_reads w' = S (clock_reads w)
  ∧ length (prompts_sent w') = S (length (prompts_sent w))
  ∧ background w' = background w ++ [(id, AnalysisResponse_dict r)].
Proof.
  intros Hrun.
  destruct (analyze_inr_fields E _ _ _ _ _ _ _ Hrun) as (Hid & Hty & Hst & Hts).
  apply analyze_inr in Hrun as (prompt & -> & _ & _).
  repeat split; try assumption. simpl. rewrite length_app. simpl. lia.
Qed.

(** X8. A batch call that returns has one [analyses] entry per distinct
    requested name, while [analysis_count] is the length of the requested
    list, repetitions included; it has sent one prompt per list element, all
    requested names are valid, and the one queued save is keyed by the
    identifier followed by "_batch". *)
Theorem batch_result_shape (E : Env) (id ft : string) (tys : list string)
    (w w' : World) (data : json) :
  batch_analysis E id ft tys w = (inr data, w') →
  dom (analyses data) = list_to_set tys
  ∧ analysis_count data = Some (Z.of_nat (length tys))
  ∧ size (dom (analyses data)) ≤ length tys
  ∧ length (prompts_sent w') = length (prompts_sent w) + length tys
  ∧ background w' = background w ++ [(id +:+ "_batch", data)]
  ∧ (∀ t, t ∈ tys → t ∈ valid_types).
Proof.
  intros Hrun.
  apply batch_inr in Hrun as (Hdom & Hcount & Hlen & _ & Hbg & _ & _ & Hvalid).
  repeat split; try assumption.
  rewrite Hdom. apply size_list_to_set_le.
Qed.

(** X9. With no earlier save pending and a writable results file, the save a
    successful batch call queued goes to the "_batch" result file: retrieval
    under the identifier followed by "_batch" returns the batch result, and
    the single-category result file of the document is left as it was. *)
Theorem batch_saved_apart (E : Env) (id ft : string) (tys : list string)
    (w w' : World) (data : json) :
  background w = [] →
  open_for_writing E ("analysis_results/" +:+ result_file (id +:+ "_batch")) = None →
  batch_analysis E id ft tys w = (inr data, w') →
  get_analysis_results (id +:+ "_batch") (run_background_tasks E w')
    = (inr data, run_background_tasks E w')
  ∧ results_dir (run_background_tasks E w') !! result_file id
    = results_dir w !! result_file id.
Proof.
  intros Hnone Hopen Hrun.
  apply batch_inr in Hrun as (_ & _ & _ & _ & Hbg & Hres & _ & _).
  rewrite get_analysis_results_run, run_background_tasks_run. simpl.
  rewrite Hbg, Hnone, Hres.
  pose proof (persist_snoc E [] (id +:+ "_batch") data (results_dir w) Hopen) as Hsave.
  simpl in Hsave |- *. rewrite Hsave. unfold persist. simpl.
  rewrite lookup_insert_eq. split; [reflexivity|].
  rewrite lookup_insert_ne by apply result_file_batch_ne. reflexivity.
Qed.

(** X10. The [analysis_type] and [language] fields of the request body are
    never read: two requests with the same [focus_areas] get the same
    response and leave the same world. *)
Theorem request_language_is_ignored (E : Env) (c : Category) (id ft : string)
    (req req' : AnalysisRequest) (w : World) :
  focus_areas req = focus_areas req' →
  analyze E c id ft req w = analyze E c id ft req' w.
Proof. intros Heq. apply analyze_focus. by rewrite Heq. Qed.

(** X11. The response is returned before the result is saved: in the world a
    successful analysis returns in, retrieval still answers what it answered
    before the call, so 404 when the document had no stored result. *)
Theorem retrieval_before_save_sees_old_result (E : Env) (c : Category) (id ft : string)
    (req : AnalysisRequest) (w w' : World) (r : AnalysisResponse) :
  analyze E c id ft req w = (inr r, w') →
  (get_analysis_results id w').1 = (get_analysis_results id w).1
  ∧ (results_dir w !! result_file id = None →
     get_analysis_results id w'
     = (inl (HTTPException 404 "Analysis results not found"), w')).
Proof.
  intros Hrun. apply analyze_inr in Hrun as (prompt & -> & _ & _).
  rewrite !get_analysis_results_run. simpl. split; [reflexivity|].
  by intros ->.
Qed.

(** X12. When the result file cannot be opened for writing,
    [save_analysis_result] raises 500 "Error saving analysis: <cause>" and
    writes nothing; run as the background task of a successful analysis the
    failure goes unseen and the results directory stays as it was. *)
Theorem failed_save_is_silent (E : Env) (c : Category) (id ft : string)
    (req : AnalysisRequest) (w w' : World) (r : AnalysisResponse) (cause : string)
    (data : json) :
  open_for_writing E ("analysis_results/" +:+ result_file id) = Some cause →
  save_analysis_result E id data w
  = (inl (HTTPException 500 ("Error saving analysis: " +:+ cause)), w)
  ∧ (background w = [] →
     analyze E c id ft req w = (inr r, w') →
     results_dir (run_background_tasks E w') = results_dir w).
Proof.
  intros Hopen. split.
  - unfold save_analysis_result; run. by rewrite Hopen.
  - intros Hnone Hrun. apply analyze_inr in Hrun as (prompt & -> & _ & _).
    rewrite run_background_tasks_run. simpl. rewrite Hnone. simpl.
    unfold persist. simpl. unfold persist1. simpl. by rewrite Hopen.
Qed.

(** ** Upload *)

Lemma allowed_types_spec (ext : string) :
  ext ∈ allowed_types ↔ ext = ".pdf" ∨ ext = ".docx" ∨ ext = ".doc" ∨ ext = ".txt".
Proof.
  unfold allowed_types. rewrite !elem_of_union, !elem_of_singleton. tauto.
Qed.

Lemma head_unique {A : Type} (l : list A) (a : A) :
  a ∈ l → (∀ x, x ∈ l → x = a) → head l = Some a.
Proof.
  destruct l as [|x l]; [by intros ?%elem_of_nil|].
  intros _ Hall. simpl. f_equal. apply Hall. by left.
Qed.

Section Upload.
Context (E : Env).

Lemma upload_document_run filename content w :
  Py.lower (Py.path_suffix filename) ∈ allowed_types →
  upload_document E filename content w =
    match open_for_writing E
            ("uploads/" +:+
             ((strftime (utcnow E (clock_reads w)) +:+ "_" +:+
               List.hd "" (Py.split "." filename)) +:+
              Py.lower (Py.path_suffix filename))) with
    | Some msg =>
        (inl (HTTPException 500 ("Upload failed: " +:+ msg)),
         set_clock_reads (S (clock_reads w)) w)
    | None =>
        (inr {| md_document_id :=
                  strftime (utcnow E (clock_reads w)) +:+ "_" +:+
                  List.hd "" (Py.split "." filename);
                md_filename := filename;
                md_file_type := Py.slice_from 1 (Py.lower (Py.path_suffix filename));
                md_upload_time := isoformat (utcnow E (S (clock_reads w)));
                md_file_size := length content;
                md_status := "uploaded" |},
         set_clock_reads (S (S (clock_reads w)))
           (set_upload_dir
              (<[(strftime (utcnow E (clock_reads w)) +:+ "_" +:+
                  List.hd "" (Py.split "." filename)) +:+
                 Py.lower (Py.path_suffix filename) := content]> (upload_dir w))
              (set_clock_reads (S (clock_reads w)) w)))
    end.
Proof.
  intros Hext. unfold upload_document; run.
  rewrite decide_False by (by intros Hnot). simpl.
  by destruct (open_for_writing E _).
Qed.

Lemma glob_elem pattern w name :
  name ∈ glob E pattern w
  ↔ fnmatch E pattern name = true ∧ is_Some (upload_dir w !! name).
Proof.
  unfold glob. rewrite list_elem_of_filter, list_elem_of_fmap. split.
  - intros [Hm ([n file] & -> & Hin%elem_of_map_to_list)]. eauto.
  - intros [Hm [file Hfile]]. split; [done|].
    exists (name, file). split; [done|]. by apply elem_of_map_to_list.
Qed.

End Upload.

(** X13. An upload with an allowed extension whose target can be opened
    returns metadata with the identifier <second>_<filename up to its first
    dot>, the extension without its dot as file type, the byte count and
    status "uploaded"; the bytes can be read back under identifier + extension,
    every other stored file is as before, and nothing else changes but the
    clock, read twice. *)
Theorem upload_stores_file (E : Env) (filename : string) (content : list byte)
    (w : World) :
  Py.lower (Py.path_suffix filename) ∈ [".pdf"; ".docx"; ".doc"; ".txt"] →
  open_for_writing E
    ("uploads/" +:+
     ((strftime (utcnow E (clock_reads w)) +:+ "_" +:+
       List.hd "" (Py.split "." filename)) +:+
      Py.lower (Py.path_suffix filename))) = None →
  ∃ md w',
    upload_document E filename content w = (inr md, w')
    ∧ md_document_id md
      = strftime (utcnow E (clock_reads w)) +:+ "_" +:+ List.hd "" (Py.split "." filename)
    ∧ "." +:+ md_file_type md = Py.lower (Py.path_suffix filename)
    ∧ md_file_size md = length content
    ∧ md_status md = "uploaded"
    ∧ md_upload_time md = isoformat (utcnow E (S (clock_reads w)))
    ∧ read_upload (md_document_id md +:+ Py.lower (Py.path_suffix filename)) w'
      = (inr content, w')
    ∧ (∀ name, name ≠ md_document_id md +:+ Py.lower (Py.path_suffix filename) →
         upload_dir w' !! name = upload_dir w !! name)
    ∧ results_dir w' = results_dir w
    ∧ background w' = background w
    ∧ prompts_sent w' = prompts_sent w.
Proof.
  intros Hext Hopen.
  assert (Py.lower (Py.path_suffix filename) ∈ allowed_types) as Hallowed.
  { apply allowed_types_spec. apply list_elem_of_In in Hext. simpl in Hext.
    intuition auto. }
  eexists _, _. rewrite (upload_document_run E _ _ _ Hallowed), Hopen.
  split; [reflexivity|]. simpl.
  split; [reflexivity|]. split.
  { apply allowed_types_spec in Hallowed as [->|[->|[->| ->]]]; reflexivity. }
  split; [reflexivity|]. split; [reflexivity|]. split; [reflexivity|]. split.
  { unfold read_upload. simpl. by rewrite lookup_insert_eq. }
  split; [|done].
  intros name Hname. by rewrite lookup_insert_ne.
Qed.

(** X14. When the target cannot be opened the upload raises 500 "Upload
    failed: <cause>" and the upload directory is left as it was. *)
Theorem upload_write_failure_is_500 (E : Env) (filename : string) (content : list byte)
    (w : World) (cause : string) :
  Py.lower (Py.path_suffix filename) ∈ [".pdf"; ".docx"; ".doc"; ".txt"] →
  open_for_writing E
    ("uploads/" +:+
     ((strftime (utcnow E (clock_reads w)) +:+ "_" +:+
       List.hd "" (Py.split "." filename)) +:+
      Py.lower (Py.path_suffix filename))) = Some cause →
  ∃ w', upload_document E filename content w
        = (inl (HTTPException 500 ("Upload failed: " +:+ cause)), w')
        ∧ upload_dir w' = upload_dir w.
Proof.
  intros Hext Hopen.
  assert (Py.lower (Py.path_suffix filename) ∈ allowed_types) as Hallowed.
  { apply allowed_types_spec. apply list_elem_of_In in Hext. simpl in Hext.
    intuition auto. }
  eexists. rewrite (upload_document_run E _ _ _ Hallowed), Hopen. done.
Qed.

(** X15. The file type a successful upload reports is one the extractor has a
    parser for, so analysing the stored file with the reported type never
    raises "Unsupported file type": the bytes go to the PDF parser for pdf, to
    the Word parser for docx and doc, to the text reader for txt. *)
Theorem uploaded_type_is_extractable (E : Env) (filename : string)
    (content : list byte) (w w' : World) (md : DocumentMetadata) :
  upload_document E filename content w = (inr md, w') →
  md_file_type md ∈ supported_types
  ∧ (md_file_type md = "pdf" →
     extract_document_text E (md_document_id md +:+ ".pdf") (md_file_type md) w'
     = (match pdf_pages E content with
        | inl msg => inl (HTTPException 400 ("Error reading PDF: " +:+ msg))
        | inr pages => inr (Py.join "" pages)
        end, w'))
  ∧ (md_file_type md = "docx" ∨ md_file_type md = "doc" →
     extract_document_text E (md_document_id md +:+ "." +:+ md_file_type md)
       (md_file_type md) w'
     = (match docx_paragraphs E content with
        | inl msg => inl (HTTPException 400 ("Error reading DOCX: " +:+ msg))
        | inr paragraphs => inr (Py.join Py.LF paragraphs)
        end, w'))
  ∧ (md_file_type md = "txt" →
     extract_document_text E (md_document_id md +:+ ".txt") (md_file_type md) w'
     = (match utf8_decode E content with
        | inl msg => inl (HTTPException 400 ("Error reading TXT: " +:+ msg))
        | inr text => inr (Py.universal_newlines text)
        end, w')).
Proof.
  intros Hrun.
  destruct (decide (Py.lower (Py.path_suffix filename) ∈ allowed_types)) as [Hext|Hext].
  2:{ revert Hrun. unfold upload_document; run. by rewrite decide_True. }
  rewrite (upload_document_run E _ _ _ Hext) in Hrun.
  destruct (open_for_writing E _); [discriminate|].
  apply pair_equal_spec in Hrun as [Hmd <-]. apply (inj inr) in Hmd. subst md.
  cbn [md_file_type md_document_id].
  assert (∀ name, upload_dir
            (set_clock_reads (S (S (clock_reads w)))
               (set_upload_dir (<[name := content]> (upload_dir w))
                  (set_clock_reads (S (clock_reads w)) w))) !! name = Some content)
    as Hfile by (intros name; simpl; apply lookup_insert_eq).
  apply allowed_types_spec in Hext as [Heq|[Heq|[Heq|Heq]]]; rewrite Heq in *;
    (split; [apply list_elem_of_In; vm_compute; tauto|]);
    (split; [|split]).
  all: try (intros; exfalso; vm_compute in *; intuition discriminate).
  - intros _. by apply extract_pdf.
  - intros _. apply extract_docx; [apply Hfile|].
    apply list_elem_of_In; vm_compute; tauto.
  - intros _. apply extract_docx; [apply Hfile|].
    apply list_elem_of_In; vm_compute; tauto.
  - intros _. by apply extract_txt.
Qed.

(** X16. The identifier is made of the second of the upload and the
    filename's part before its first dot, nothing else: two successful
    uploads within one second whose filenames agree up to the first dot get
    the same identifier, and when their extensions agree too the second
    upload replaces the bytes of the first. *)
Theorem same_second_uploads_collide (E : Env) (filename1 filename2 : string)
    (content1 content2 : list byte) (w w1 w2 : World) (md1 md2 : DocumentMetadata) :
  upload_document E filename1 content1 w = (inr md1, w1) →
  upload_document E filename2 content2 w1 = (inr md2, w2) →
  strftime (utcnow E (clock_reads w)) = strftime (utcnow E (clock_reads w1)) →
  List.hd "" (Py.split "." filename1) = List.hd "" (Py.split "." filename2) →
  md_document_id md1 = md_document_id md2
  ∧ (md_file_type md1 = md_file_type md2 →
     upload_dir w2
       = <[md_document_id md2 +:+ "." +:+ md_file_type md2 := content2]> (upload_dir w)
     ∧ read_upload (md_document_id md1 +:+ "." +:+ md_file_type md1) w2
       = (inr content2, w2)).
Proof.
  intros Hrun1 Hrun2 Hsecond Hstem.
  destruct (decide (Py.lower (Py.path_suffix filename1) ∈ allowed_types)) as [Hext1|Hext1].
  2:{ revert Hrun1. unfold upload_document; run. by rewrite decide_True. }
  destruct (decide (Py.lower (Py.path_suffix filename2) ∈ allowed_types)) as [Hext2|Hext2].
  2:{ revert Hrun2. unfold upload_document; run. by rewrite decide_True. }
  rewrite (upload_document_run E _ _ _ Hext1) in Hrun1.
  destruct (open_for_writing E _); [discriminate|].
  apply pair_equal_spec in Hrun1 as [Hmd1 Hw1]. apply (inj inr) in Hmd1.
  rewrite (upload_document_run E _ _ _ Hext2) in Hrun2.
  destruct (open_for_writing E _); [discriminate|].
  apply pair_equal_spec in Hrun2 as [Hmd2 Hw2]. apply (inj inr) in Hmd2.
  rewrite <- Hsecond, <- Hstem in Hmd2, Hw2.
  subst md1 md2. cbn [md_document_id md_file_type].
  split; [reflexivity|].
  intros Htype.
  assert (Py.lower (Py.path_suffix filename1) = Py.lower (Py.path_suffix filename2))
    as Hsame.
  { apply allowed_types_spec in Hext1 as [H1|[H1|[H1|H1]]];
      apply allowed_types_spec in Hext2 as [H2|[H2|[H2|H2]]];
      rewrite H1, H2 in *; first [reflexivity | discriminate]. }
  assert ("." +:+ Py.slice_from 1 (Py.lower (Py.path_suffix filename2))
          = Py.lower (Py.path_suffix filename2)) as Hdot
    by (apply allowed_types_spec in Hext2 as [->|[->|[->| ->]]]; reflexivity).
  rewrite Hsame, Hdot.
  assert (upload_dir w2
          = <[(strftime (utcnow E (clock_reads w)) +:+ "_" +:+
               List.hd "" (Py.split "." filename1)) +:+
              Py.lower (Py.path_suffix filename2) := content2]> (upload_dir w)) as Hdir.
  { subst w2 w1. simpl. rewrite Hsame. apply insert_insert_eq. }
  split; [exact Hdir|].
  unfold read_upload. rewrite Hdir. by rewrite lookup_insert_eq.
Qed.

Section Found.
Context (E : Env).

Lemma analyze_found_codes c id ft req w p e w' :
  head (glob E (id +:+ ".*") w) = Some p →
  analyze E c id ft req w = (inl e, w') →
  ∃ code detail, e = HTTPException code detail ∧ (code = 400 ∨ code = 500).
Proof.
  intros Hglob. unfold analyze; run. rewrite Hglob.
  pose proof (extract_document_text_world E p ft w) as Hw.
  destruct (extract_document_text E p ft w) as [[e0|text] w1] eqn:Hext;
    simpl in Hw; subst w1.
  { apply extract_document_text_http in Hext as [d ->]. intros [= <- <-]. eauto. }
  rewrite call_openai_api_run.
  destruct (chat_completion E _ _) as [msg|raw]; [intros [= <- <-]; eauto|].
  repeat (destruct (py_get _ _ _) as [e1|?] eqn:Hget;
          [apply py_get_inl in Hget as [msg ->]; intros [= <- <-]; eauto|clear Hget]).
  destruct (AnalysisResponse_init _ _ _ _ _ _ _ _ _ _) as [e1|response] eqn:Hinit.
  - apply AnalysisResponse_init_inl in Hinit as [msg ->]. intros [= <- <-]. eauto.
  - discriminate.
Qed.

Lemma batch_found_codes id ft tys w p e w' :
  head (glob E (id +:+ ".*") w) = Some p →
  batch_analysis E id ft tys w = (inl e, w') →
  ∃ code detail, e = HTTPException code detail ∧ (code = 400 ∨ code = 500).
Proof.
  intros Hglob. unfold batch_analysis; run. rewrite Hglob.
  case_decide; [intros [= <- <-]; eauto|].
  pose proof (extract_document_text_world E p ft w) as Hw.
  destruct (extract_document_text E p ft w) as [[e0|text] w1] eqn:Hext;
    simpl in Hw; subst w1.
  { apply extract_document_text_http in Hext as [d ->]. intros [= <- <-]. eauto. }
  destruct (batch_loop E text tys ∅ w) as (_ & _ & _ & _ & Hout).
  destruct (foldM (batch_step E text) ∅ tys w) as [[e1|results] w1];
    cbn [fst snd] in Hout.
  - destruct Hout as [[d ->]|[msg ->]]; intros [= <- <-]; eauto.
  - discriminate.
Qed.

End Found.

(** X17. After a successful upload, when the glob pattern <identifier>.*
    matches the stored name and no other stored name, the lookup of every
    analysis endpoint finds the uploaded file, so the endpoints do not answer
    404 for the identifier the upload returned. *)
Theorem uploaded_document_is_found (E : Env) (filename : string)
    (content : list byte) (w w' : World) (md : DocumentMetadata) (c : Category)
    (req : AnalysisRequest) (tys : list string) :
  upload_document E filename content w = (inr md, w') →
  fnmatch E (md_document_id md +:+ ".*")
    (md_document_id md +:+ "." +:+ md_file_type md) = true →
  (∀ name, is_Some (upload_dir w !! name) →
     fnmatch E (md_document_id md +:+ ".*") name = true →
     name = md_document_id md +:+ "." +:+ md_file_type md) →
  glob_first E (md_document_id md +:+ ".*") w'
  = (inr (Some (md_document_id md +:+ "." +:+ md_file_type md)), w')
  ∧ analyze E c (md_document_id md) (md_file_type md) req w'
    ≠ (inl (HTTPException 404 "Document not found"), w')
  ∧ batch_analysis E (md_document_id md) (md_file_type md) tys w'
    ≠ (inl (HTTPException 404 "Document not found"), w').
Proof.
  intros Hrun Hmatch Hunique.
  destruct (decide (Py.lower (Py.path_suffix filename) ∈ allowed_types)) as [Hext|Hext].
  2:{ revert Hrun. unfold upload_document; run. by rewrite decide_True. }
  rewrite (upload_document_run E _ _ _ Hext) in Hrun.
  destruct (open_for_writing E _); [discriminate|].
  apply pair_equal_spec in Hrun as [Hmd Hw']. apply (inj inr) in Hmd.
  assert ("." +:+ md_file_type md = Py.lower (Py.path_suffix filename)) as Hdot.
  { subst md. cbn [md_file_type].
    apply allowed_types_spec in Hext as [->|[->|[->| ->]]]; reflexivity. }
  assert (upload_dir w'
          = <[md_document_id md +:+ "." +:+ md_file_type md := content]> (upload_dir w))
    as Hdir.
  { rewrite Hdot. subst md w'. reflexivity. }
  assert (head (glob E (md_document_id md +:+ ".*") w')
          = Some (md_document_id md +:+ "." +:+ md_file_type md)) as Hglob.
  { apply head_unique.
    - apply glob_elem. split; [done|]. rewrite Hdir, lookup_insert_eq. eauto.
    - intros name [Hname Hsome]%glob_elem.
      destruct (decide (name = md_document_id md +:+ "." +:+ md_file_type md))
        as [|Hne]; [done|].
      rewrite Hdir, lookup_insert_ne in Hsome by done. by apply Hunique. }
  split; [unfold glob_first; by rewrite Hglob|].
  assert (md_file_type md ∈ supported_types) as Hsupported.
  { subst md. cbn [md_file_type].
    apply allowed_types_spec in Hext as [->|[->|[->| ->]]];
      apply list_elem_of_In; vm_compute; tauto. }
  split.
  - intros Hnot.
    destruct (analyze_found_codes E _ _ _ _ _ _ _ _ Hglob Hnot)
      as (code & detail & [= <- _] & [|]); discriminate.
  - intros Hnot.
    destruct (batch_found_codes E _ _ _ _ _ _ _ Hglob Hnot)
      as (code & detail & [= <- _] & [|]); discriminate.
Qed.

(** ** The prompt, retrieval and extraction once more *)

Lemma length_app (s t : string) :
  String.length (s +:+ t) = String.length s + String.length t.
Proof. induction s as [|c s IH]; [reflexivity|]. rewrite app_cons. simpl. by rewrite IH. Qed.

(** X18. The length of the prompt is the length of its header (category
    label and focus areas) plus min(5000, length of the text) plus the length
    of the fixed instructions: past 5000 characters the document no longer
    adds to the prompt. The category label and every focus area occur in it. *)
Theorem prompt_length_and_contents (analysis_type text : string) (focus : list string) :
  String.length (generate_analysis_prompt analysis_type text focus)
  = String.length (prompt_head analysis_type focus)
    + Nat.min 5000 (String.length text) + String.length prompt_tail
  ∧ String.length (generate_analysis_prompt analysis_type text focus)
    ≤ String.length (prompt_head analysis_type focus) + 5000 + String.length prompt_tail
  ∧ occurs_in analysis_type (generate_analysis_prompt analysis_type text focus)
  ∧ (∀ area, area ∈ focus →
       occurs_in area (generate_analysis_prompt analysis_type text focus)).
Proof.
  assert (String.length (generate_analysis_prompt analysis_type text focus)
          = String.length (prompt_head analysis_type focus)
            + Nat.min 5000 (String.length text) + String.length prompt_tail) as Hlen.
  { unfold generate_analysis_prompt. rewrite !length_app, slice_to_length. lia. }
  split; [exact Hlen|]. split; [rewrite Hlen; lia|]. split.
  - unfold generate_analysis_prompt, prompt_head.
    apply occurs_in_app_l, occurs_in_app_r, occurs_in_app_l, occurs_in_refl.
  - intros area Harea. unfold generate_analysis_prompt, prompt_head.
    apply occurs_in_app_l. do 5 apply occurs_in_app_r.
    apply occurs_in_app_l. by apply join_occurs.
Qed.

(** X19. Download and retrieval look at the same result file: the download
    answers 404 exactly when retrieval does, and otherwise names as attachment
    <identifier>_analysis.json, of type application/json, the file whose
    content retrieval returns; neither changes the world. *)
Theorem download_agrees_with_retrieval (id : string) (w : World) :
  (results_dir w !! result_file id = None →
     get_analysis_results id w
     = (inl (HTTPException 404 "Analysis results not found"), w)
     ∧ download_analysis_results id w
       = (inl (HTTPException 404 "Analysis results not found"), w))
  ∧ (∀ data, results_dir w !! result_file id = Some data →
     get_analysis_results id w = (inr data, w)
     ∧ ∃ file, download_analysis_results id w = (inr file, w)
         ∧ results_dir w !! fr_path file = Some data
         ∧ fr_filename file = id +:+ "_analysis.json"
         ∧ fr_media_type file = "application/json").
Proof.
  split.
  - intros Hnone. rewrite get_analysis_results_run.
    unfold download_analysis_results; run. by rewrite Hnone.
  - intros data Hsome. rewrite get_analysis_results_run.
    unfold download_analysis_results; run. rewrite Hsome.
    split; [reflexivity|]. eexists. split; [reflexivity|]. by simpl.
Qed.


(** ** The batch loop once more *)

Section BatchMore.
Context (E : Env).

Lemma analyze_prompt_sent c id ft req w p text :
  head (glob E (id +:+ ".*") w) = Some p →
  extract_document_text E p ft w = (inr text, w) →
  prompts_sent (analyze E c id ft req w).2
  = prompts_sent w ++
    [generate_analysis_prompt (prompt_label c) text
       (or_default (focus_areas req) (default_focus_areas c))].
Proof.
  intros Hglob Hext. unfold analyze; run. rewrite Hglob, Hext.
  rewrite call_openai_api_run.
  destruct (chat_completion E _ _) as [msg|raw]; [reflexivity|].
  repeat (destruct (py_get _ _ _) as [[]|?]; [reflexivity..|]).
  by destruct (AnalysisResponse_init _ _ _ _ _ _ _ _ _ _) as [[]|response].
Qed.

End BatchMore.

Lemma label_is_key (c : Category) (text : string) :
  generate_analysis_prompt (prompt_label c) text (default_focus_areas c)
  = generate_analysis_prompt (category_name c) text (default_focus_areas c)
  ↔ c = Contract ∨ c = Compliance.
Proof.
  split.
  - intros Heq. destruct c; auto; exfalso; vm_compute in Heq; discriminate Heq.
  - by intros [-> | ->].
Qed.

(** X21. For a category the batch loop sends the prompt built from the
    category's request name (contract, compliance, ip, corporate, labor, tax),
    the single-category endpoint the prompt built from its label (contract,
    compliance, intellectual property, corporate governance, labor law, tax
    law): on the same text and default focus areas the two prompts are the
    same for contract and compliance and differ for the other four. *)
Theorem batch_prompt_uses_request_name (E : Env) (c : Category) (id ft : string)
    (w : World) (p text : string) (results : gmap string json) :
  head (glob E (id +:+ ".*") w) = Some p →
  extract_document_text E p ft w = (inr text, w) →
  prompts_sent (analyze E c id ft (default_request c) w).2
  = prompts_sent w ++
    [generate_analysis_prompt (prompt_label c) text (default_focus_areas c)]
  ∧ prompts_sent (batch_step E text results (category_name c) w).2
    = prompts_sent w ++
      [generate_analysis_prompt (category_name c) text (default_focus_areas c)]
  ∧ (prompts_sent (analyze E c id ft (default_request c) w).2
     = prompts_sent (batch_step E text results (category_name c) w).2
     ↔ c = Contract ∨ c = Compliance).
Proof.
  intros Hglob Hext.
  assert (prompts_sent (analyze E c id ft (default_request c) w).2
          = prompts_sent w ++
            [generate_analysis_prompt (prompt_label c) text (default_focus_areas c)])
    as Hsingle.
  { rewrite (analyze_prompt_sent E _ _ _ _ _ p text Hglob Hext).
    change (focus_areas (default_request c)) with (Some (default_focus_areas c)).
    rewrite or_default_empty by auto. reflexivity. }
  assert (prompts_sent (batch_step E text results (category_name c) w).2
          = prompts_sent w ++
            [generate_analysis_prompt (category_name c) text (default_focus_areas c)])
    as Hbatch.
  { rewrite batch_step_run, focus_areas_map_category. reflexivity. }
  split; [exact Hsingle|]. split; [exact Hbatch|].
  rewrite Hsingle, Hbatch, <- (label_is_key c text). split.
  - intros Heq%app_inv_head. congruence.
  - by intros ->.
Qed.

(** X22. The batch endpoint accepts the empty category list: for a document
    that is found and extracted it returns a result with no analyses and
    count 0, sends no prompt, and still queues the save of that result. *)
Theorem empty_batch_returns (E : Env) (id ft : string) (w : World) (p text : string) :
  head (glob E (id +:+ ".*") w) = Some p →
  extract_document_text E p ft w = (inr text, w) →
  ∃ data w',
    batch_analysis E id ft [] w = (inr data, w')
    ∧ analyses data = ∅
    ∧ analysis_count data = Some 0%Z
    ∧ prompts_sent w' = prompts_sent w
    ∧ background w' = background w ++ [(id +:+ "_batch", data)].
Proof.
  intros Hglob Hext. eexists _, _. split.
  - unfold batch_analysis; run. rewrite Hglob.
    rewrite decide_False
      by (intros Hinvalid; apply Hinvalid, invalid_types_empty;
          by intros t ?%elem_of_nil).
    rewrite Hext. cbn [foldM]. unfold mret, M_ret. reflexivity.
  - by rewrite analyses_batch, analysis_count_batch.
Qed.

(** ** The further properties at sample runs *)


Lemma unsupported_file_type_is_400_witness :
  analyze Sample.env Labor "doc1" "RTF" (default_request Labor) Sample.world
  = (inl (HTTPException 400 ("Unsupported file type: " +:+ "RTF")), Sample.world).
Proof.
  apply (unsupported_file_type_is_400 Sample.env Labor "doc1" "RTF" (default_request Labor)
           [] Sample.world "doc1.txt").
  - vm_compute; reflexivity.
  - intros Hin. apply list_elem_of_In in Hin. vm_compute in Hin.
    destruct Hin as [|[|[|[|[]]]]]; discriminate.
  - by intros t ?%elem_of_nil.
Defined.

Lemma service_failure_is_500_witness :
  (analyze Faulty.service_down Tax "doc1" "txt" (default_request Tax) Sample.world).1
  = inl (HTTPException 500 ("OpenAI API error: " +:+ "Connection refused")).
Proof.
  rewrite (service_failure_is_500 Faulty.service_down Tax "doc1" "txt" (default_request Tax)
             Sample.world "doc1.txt" Sample.text "Connection refused");
    [reflexivity | vm_compute; reflexivity ..].
Defined.

Lemma non_object_reply_is_500_witness :
  ∃ w', analyze Faulty.list_reply Contract "doc1" "txt" (default_request Contract)
          Sample.world
        = (inl (HTTPException 500
                  ("Contract analysis failed: " +:+
                   ("'" +:+ "list" +:+ "' object has no attribute 'get'"))), w').
Proof.
  destruct (non_object_reply_is_500 Faulty.list_reply Contract "doc1" "txt"
              (default_request Contract) Sample.world "doc1.txt" Sample.text "[]" (JArr []))
    as [(w' & Hrun & _) _].
  - vm_compute; reflexivity.
  - vm_compute; reflexivity.
  - vm_compute; reflexivity.
  - vm_compute; reflexivity.
  - discriminate.
  - exists w'. exact Hrun.
Defined.

Lemma endpoint_failure_is_http_witness :
  background
    (analyze Faulty.service_down Tax "doc1" "txt" (default_request Tax) Sample.world).2
  = background Sample.world.
Proof.
  destruct (analyze Faulty.service_down Tax "doc1" "txt" (default_request Tax) Sample.world)
    as [[e|r] w'] eqn:Hrun.
  - apply (endpoint_failure_is_http _ _ _ _ _ _ _ _ Hrun).
  - vm_compute in Hrun. discriminate Hrun.
Defined.

Lemma batch_failure_is_http_witness :
  background
    (batch_analysis Faulty.service_down "doc1" "txt" ["contract"; "tax"] Sample.world).2
  = background Sample.world.
Proof.
  destruct (batch_analysis Faulty.service_down "doc1" "txt" ["contract"; "tax"]
              Sample.world) as [[e|r] w'] eqn:Hrun.
  - apply (batch_failure_is_http _ _ _ _ _ _ _ Hrun).
  - vm_compute in Hrun. discriminate Hrun.
Defined.

Lemma analysis_success_effects_witness :
  ∃ r, analyze Sample.env Contract "doc1" "txt" (default_request Contract) Sample.world
       = (inr r, Sample.after_contract)
       ∧ status r = "completed"
       ∧ clock_reads Sample.after_contract = 1.
Proof.
  exists (fallback_response Contract "doc1" "2024-01-01T12:00:00" Sample.reply0).
  assert (analyze Sample.env Contract "doc1" "txt" (default_request Contract) Sample.world
          = (inr (fallback_response Contract "doc1" "2024-01-01T12:00:00" Sample.reply0),
             Sample.after_contract)) as Hrun by (vm_compute; reflexivity).
  destruct (analysis_success_effects _ _ _ _ _ _ _ _ Hrun)
    as (_ & _ & Hstatus & _ & Hclock & _).
  auto.
Defined.

Lemma batch_result_shape_witness :
  ∃ data,
    batch_analysis Sample.env "doc1" "txt" ["tax"; "tax"] Sample.world
      = (inr data, Faulty.after_batch)
    ∧ dom (analyses data) = list_to_set ["tax"; "tax"]
    ∧ analysis_count data = Some 2%Z.
Proof.
  destruct (batch_analysis Sample.env "doc1" "txt" ["tax"; "tax"] Sample.world)
    as [[e|data] w'] eqn:Hrun.
  - vm_compute in Hrun. discriminate Hrun.
  - assert (w' = Faulty.after_batch) as -> by (unfold Faulty.after_batch; by rewrite Hrun).
    destruct (batch_result_shape _ _ _ _ _ _ _ Hrun) as (Hdom & Hcount & _).
    exists data. auto.
Defined.

Lemma batch_saved_apart_witness :
  ∃ data,
    batch_analysis Sample.env "doc1" "txt" ["tax"; "tax"] Sample.world
      = (inr data, Faulty.after_batch)
    ∧ get_analysis_results "doc1_batch" (run_background_tasks Sample.env Faulty.after_batch)
      = (inr data, run_background_tasks Sample.env Faulty.after_batch)
    ∧ results_dir (run_background_tasks Sample.env Faulty.after_batch)
        !! result_file "doc1" = None.
Proof.
  destruct (batch_analysis Sample.env "doc1" "txt" ["tax"; "tax"] Sample.world)
    as [[e|data] w'] eqn:Hrun.
  - vm_compute in Hrun. discriminate Hrun.
  - assert (w' = Faulty.after_batch) as -> by (unfold Faulty.after_batch; by rewrite Hrun).
    destruct (batch_saved_apart Sample.env "doc1" "txt" ["tax"; "tax"] Sample.world
                Faulty.after_batch data eq_refl eq_refl Hrun) as [Hget Hsingle].
    exists data. split; [reflexivity|]. split; [exact Hget|].
    rewrite Hsingle. reflexivity.
Defined.

Lemma request_language_is_ignored_witness :
  analyze Sample.env Tax "doc1" "txt"
    {| req_analysis_type := "tax"; focus_areas := Some ["credits"]; language := "French" |}
    Sample.world
  = analyze Sample.env Tax "doc1" "txt"
      {| req_analysis_type := "contract"; focus_areas := Some ["credits"];
         language := "English" |}
      Sample.world.
Proof.
  apply (request_language_is_ignored Sample.env Tax "doc1" "txt"). reflexivity.
Defined.

Lemma retrieval_before_save_sees_old_result_witness :
  get_analysis_results "doc1" Sample.after_contract
  = (inl (HTTPException 404 "Analysis results not found"), Sample.after_contract).
Proof.
  assert (analyze Sample.env Contract "doc1" "txt" (default_request Contract) Sample.world
          = (inr (fallback_response Contract "doc1" "2024-01-01T12:00:00" Sample.reply0),
             Sample.after_contract)) as Hrun by (vm_compute; reflexivity).
  apply (retrieval_before_save_sees_old_result _ _ _ _ _ _ _ _ Hrun).
  reflexivity.
Defined.

Lemma failed_save_is_silent_witness :
  save_analysis_result Faulty.read_only "doc1" JNull Sample.world
  = (inl (HTTPException 500
            ("Error saving analysis: " +:+ "[Errno 30] Read-only file system")),
     Sample.world).
Proof.
  apply (failed_save_is_silent Faulty.read_only Contract "doc1" "txt"
           (default_request Contract) Sample.world Sample.world
           (fallback_response Contract "doc1" "" "") "[Errno 30] Read-only file system" JNull).
  reflexivity.
Defined.

Lemma upload_stores_file_witness :
  ∃ md w',
    upload_document Sample.env "lease.txt" (Sample.bytes "Lease agreement.") Faulty.blank
      = (inr md, w')
    ∧ md_document_id md = "20240101_120000" +:+ "_" +:+ "lease"
    ∧ md_file_size md = 16.
Proof.
  destruct (upload_stores_file Sample.env "lease.txt" (Sample.bytes "Lease agreement.")
              Faulty.blank) as (md & w' & Hrun & Hid & _ & Hsize & _).
  - apply list_elem_of_In. vm_compute. tauto.
  - reflexivity.
  - exists md, w'. split; [exact Hrun|]. split; [exact Hid|]. exact Hsize.
Defined.

Lemma upload_write_failure_is_500_witness :
  ∃ w', upload_document Faulty.read_only "lease.txt" (Sample.bytes "x") Faulty.blank
        = (inl (HTTPException 500 ("Upload failed: " +:+ "[Errno 30] Read-only file system")),
           w')
        ∧ upload_dir w' = upload_dir Faulty.blank.
Proof.
  apply (upload_write_failure_is_500 Faulty.read_only "lease.txt" (Sample.bytes "x")
           Faulty.blank).
  - apply list_elem_of_In. vm_compute. tauto.
  - reflexivity.
Defined.

Lemma uploaded_type_is_extractable_witness :
  ∃ md,
    upload_document Sample.env "lease.txt" (Sample.bytes "Lease agreement.") Faulty.blank
      = (inr md, Faulty.after_upload)
    ∧ md_file_type md ∈ supported_types.
Proof.
  destruct (upload_document Sample.env "lease.txt" (Sample.bytes "Lease agreement.")
              Faulty.blank) as [[e|md] w'] eqn:Hrun.
  - vm_compute in Hrun. discriminate Hrun.
  - assert (w' = Faulty.after_upload) as ->
      by (unfold Faulty.after_upload; by rewrite Hrun).
    exists md. split; [reflexivity|].
    apply (uploaded_type_is_extractable _ _ _ _ _ _ Hrun).
Defined.

Lemma same_second_uploads_collide_witness :
  upload_document Faulty.same_second "report.v1.pdf" (Sample.bytes "first") Faulty.blank
    = (inr Faulty.first_md, Faulty.after_first)
  ∧ upload_document Faulty.same_second "report.v2.pdf" (Sample.bytes "second")
      Faulty.after_first
    = (inr Faulty.second_md, Faulty.after_second)
  ∧ read_upload "20240101_120000_report.pdf" Faulty.after_second
    = (inr (Sample.bytes "second"), Faulty.after_second).
Proof.
  assert (upload_document Faulty.same_second "report.v1.pdf" (Sample.bytes "first")
            Faulty.blank = (inr Faulty.first_md, Faulty.after_first)) as Hrun1
    by (vm_compute; reflexivity).
  assert (upload_document Faulty.same_second "report.v2.pdf" (Sample.bytes "second")
            Faulty.after_first = (inr Faulty.second_md, Faulty.after_second)) as Hrun2
    by (vm_compute; reflexivity).
  split; [exact Hrun1|]. split; [exact Hrun2|].
  destruct (same_second_uploads_collide Faulty.same_second _ _ _ _ _ _ _ _ _
              Hrun1 Hrun2 eq_refl eq_refl) as [_ Hsame].
  apply (Hsame eq_refl).
Defined.

Lemma uploaded_document_is_found_witness :
  ∃ md,
    upload_document Sample.env "lease.txt" (Sample.bytes "Lease agreement.") Faulty.blank
      = (inr md, Faulty.after_upload)
    ∧ glob_first Sample.env (md_document_id md +:+ ".*") Faulty.after_upload
      = (inr (Some (md_document_id md +:+ "." +:+ md_file_type md)), Faulty.after_upload).
Proof.
  exists {| md_document_id := "20240101_120000_lease"; md_filename := "lease.txt";
            md_file_type := "txt"; md_upload_time := "2024-01-01T12:00:01";
            md_file_size := 16; md_status := "uploaded" |}.
  assert (upload_document Sample.env "lease.txt" (Sample.bytes "Lease agreement.")
            Faulty.blank
          = (inr {| md_document_id := "20240101_120000_lease"; md_filename := "lease.txt";
                    md_file_type := "txt"; md_upload_time := "2024-01-01T12:00:01";
                    md_file_size := 16; md_status := "uploaded" |}, Faulty.after_upload))
    as Hrun by (vm_compute; reflexivity).
  split; [exact Hrun|].
  apply (uploaded_document_is_found Sample.env _ _ _ _ _ Contract (default_request Contract)
           [] Hrun).
  - vm_compute; reflexivity.
  - intros name [file Hfile].
    change (upload_dir Faulty.blank) with (∅ : gmap string (list byte)) in Hfile.
    by rewrite lookup_empty in Hfile.
Defined.

Lemma prompt_length_and_contents_witness :
  occurs_in "tax law" (generate_analysis_prompt "tax law" "Lease agreement." ["credits"])
  ∧ occurs_in "credits" (generate_analysis_prompt "tax law" "Lease agreement." ["credits"]).
Proof.
  destruct (prompt_length_and_contents "tax law" "Lease agreement." ["credits"])
    as (_ & _ & Hlabel & Hfocus).
  split; [exact Hlabel|]. apply Hfocus. apply list_elem_of_In. simpl. tauto.
Defined.

Lemma download_agrees_with_retrieval_witness :
  download_analysis_results "doc1" Sample.world
  = (inl (HTTPException 404 "Analysis results not found"), Sample.world).
Proof.
  destruct (download_agrees_with_retrieval "doc1" Sample.world) as [Hnone _].
  apply Hnone. reflexivity.
Defined.


Lemma batch_prompt_uses_request_name_witness :
  prompts_sent (analyze Sample.env Tax "doc1" "txt" (default_request Tax) Sample.world).2
  = [generate_analysis_prompt "tax law" Sample.text (default_focus_areas Tax)]
  ∧ prompts_sent (batch_step Sample.env Sample.text ∅ "tax" Sample.world).2
    = [generate_analysis_prompt "tax" Sample.text (default_focus_areas Tax)].
Proof.
  destruct (batch_prompt_uses_request_name Sample.env Tax "doc1" "txt" Sample.world
              "doc1.txt" Sample.text ∅) as (Hsingle & Hbatch & _).
  - vm_compute; reflexivity.
  - vm_compute; reflexivity.
  - split; [exact Hsingle | exact Hbatch].
Defined.

Lemma empty_batch_returns_witness :
  ∃ data w',
    batch_analysis Sample.env "doc1" "txt" [] Sample.world = (inr data, w')
    ∧ analyses data = ∅
    ∧ prompts_sent w' = prompts_sent Sample.world.
Proof.
  destruct (empty_batch_returns Sample.env "doc1" "txt" Sample.world "doc1.txt" Sample.text)
    as (data & w' & Hrun & Hnone & _ & Hsent & _).
  - vm_compute; reflexivity.
  - vm_compute; reflexivity.
  - exists data, w'. auto.
Defined.
